(** * distil-commit-bot: a shallow embedding of [bot.py]

    The definitions follow the layout of the source file:
    - [PyStr]: the operations on Python [str] values that [bot.py] uses;
    - [Re]: the fragment of Python's backtracking [re] engine needed for
      the one pattern of the program, [(@@[^@]*@@).*];
    - [Py]: the effects of the program (printing, the clock, the [git]
      subprocess, the completion endpoint, the file system, the
      observer) and the monad its functions are written in;
    - [Bot]: the prompt builder and completion client [DistilLabsLLM],
      the diff pipeline [run_git_diff_analysis], the watchdog handler
      [RepositoryChangeHandler] and the [__main__] block.
    [Scan], [Trace] and [Spec] hold the vocabulary of the statements,
    [Sample] a concrete world for the runs at concrete inputs. The
    lemmas and the theorems for the numbered properties of the
    specification come last. *)

From Stdlib Require Import Ascii String DecimalString DecimalZ DecimalPos.
From Stdlib Require Import QArith Lqa ZArith Lia.
From stdpp Require Import base strings list gmap.
From Equations Require Import Equations.

(** ** Python [str] operations *)

Module PyStr.

(** The line feed, ["\n"] in the source. *)
Definition LF : ascii := "010"%char.

(** [s.startswith(p)]. *)
Definition startswith (s p : string) : bool := String.prefix p s.

(** [needle in hay] on strings: some suffix of [hay] starts with
    [needle]. *)
Fixpoint contains (needle hay : string) : bool :=
  if String.prefix needle hay then true
  else match hay with
       | EmptyString => false
       | String _ hay' => contains needle hay'
       end.

(** [s.split(sep)] for a one-character separator. The result is never
    the empty list: [[""]] for the empty string. *)
Fixpoint split (sep : ascii) (s : string) : list string :=
  match s with
  | EmptyString => [EmptyString]
  | String a s' =>
      if Ascii.eqb a sep then EmptyString :: split sep s'
      else match split sep s' with
           | l :: ls => String a l :: ls
           | [] => [String a EmptyString]
           end
  end.

(** [sep.join(ls)]. *)
Definition join (sep : string) (ls : list string) : string :=
  String.concat sep ls.

(** [s * n]. *)
Fixpoint repeat (s : string) (n : nat) : string :=
  match n with
  | O => EmptyString
  | S n' => s +:+ repeat s n'
  end.

(** [not s]: only the empty string is falsy. *)
Definition falsy (s : string) : bool :=
  match s with
  | EmptyString => true
  | String _ _ => false
  end.

(** [s[n:]]. *)
Fixpoint drop (n : nat) (s : string) : string :=
  match n, s with
  | O, _ => s
  | S _, EmptyString => EmptyString
  | S n', String _ s' => drop n' s'
  end.

(** [s[i:j]]. *)
Definition slice (i j : nat) (s : string) : string :=
  String.substring i (j - i) s.

End PyStr.

(** ** The regular-expression engine

  Python's [re] is a backtracking matcher: a greedy star first takes as
  many characters as it can and gives them back one at a time when the
  rest of the pattern fails. The matcher below is written in
  continuation-passing style, the continuation standing for "the rest
  of the pattern". Positions are counted from the start of the match;
  the span of group 1 is recorded as [Match.span(1)] reports it. *)

Module Re.

Inductive charset : Type :=
| Lit (c : ascii)      (* the character itself *)
| NotIn (c : ascii)    (* [^c] *)
| Dot.                 (* . (no DOTALL flag): anything but a line feed *)

Definition accepts (cs : charset) (a : ascii) : bool :=
  match cs with
  | Lit c => Ascii.eqb a c
  | NotIn c => negb (Ascii.eqb a c)
  | Dot => negb (Ascii.eqb a PyStr.LF)
  end.

Inductive regex : Type :=
| Chr (cs : charset)          (* one character of the set *)
| Star (cs : charset)         (* cs*, greedy *)
| Seq (r1 r2 : regex)         (* r1 r2 *)
| Group (r : regex).          (* ( r ), capture group 1 *)

Definition span : Type := (nat * nat)%type.

(** What a successful match reports: its length and the span of
    group 1, if the group took part. *)
Definition result : Type := (nat * option span)%type.

(** Greedy star: consume while the set accepts, then try the
    continuation; on failure give one character back and retry. *)
Fixpoint star (cs : charset) (s : string) (pos : nat)
    (k : string -> nat -> option result) : option result :=
  match s with
  | String a s' =>
      if accepts cs a then
        match star cs s' (S pos) k with
        | Some res => Some res
        | None => k s pos
        end
      else k s pos
  | EmptyString => k s pos
  end.

Fixpoint run (r : regex) (s : string) (pos : nat) (g : option span)
    (k : string -> nat -> option span -> option result) : option result :=
  match r with
  | Chr cs =>
      match s with
      | String a s' => if accepts cs a then k s' (S pos) g else None
      | EmptyString => None
      end
  | Star cs => star cs s pos (fun s' pos' => k s' pos' g)
  | Seq r1 r2 => run r1 s pos g (fun s' pos' g' => run r2 s' pos' g' k)
  | Group r1 => run r1 s pos g (fun s' pos' _ => k s' pos' (Some (pos, pos')))
  end.

(** [pattern.match(s)]: a match anchored at the start of [s]. *)
Definition match_at (r : regex) (s : string) : option result :=
  run r s 0 None (fun _ pos g => Some (pos, g)).

(** The template [r"\1"]: the text of group 1 (a group that did not
    take part expands to the empty string). *)
Definition expand1 (s : string) (g : option span) : string :=
  match g with
  | Some (i, j) => PyStr.slice i j s
  | None => EmptyString
  end.

(** [re.sub(r, r"\1", s)]: scan from the left; where the pattern
    matches, emit the expansion of the template and go on after the
    match; elsewhere copy one character. An empty match emits its
    expansion and copies the character it stands before. *)
Equations? sub1 (r : regex) (s : string) : string by wf (String.length s) lt :=
  sub1 r EmptyString with match_at r EmptyString := {
    | Some (_, g) => expand1 EmptyString g
    | None => EmptyString };
  sub1 r (String a s') with match_at r (String a s') := {
    | Some (S n, g) => expand1 (String a s') g +:+ sub1 r (PyStr.drop n s')
    | Some (O, g) => expand1 (String a s') g +:+ String a (sub1 r s')
    | None => String a (sub1 r s') }.
Proof.
  all: simpl; try lia.
  clear. revert s'. induction n as [|n IH]; intros [|b s']; simpl; try lia.
  specialize (IH s'). lia.
Qed.

End Re.

(** ** Effects of the Python program

    [bot.py] talks to the outside world through [print], [time],
    [subprocess.run], the OpenAI client, [os.path] and the watchdog
    observer. A computation reads what the world answers from an
    environment, logs what it does as a list of effects, threads the
    mutable object it works on, and ends normally or with an exception. *)

Module Py.

(** The exceptions the program meets. [Exception] stands for every
    other subclass of Python's [Exception], carrying [str(e)];
    [SystemExit] and [KeyboardInterrupt] derive from [BaseException]
    only. *)
Inductive exn : Type :=
| CalledProcessError (returncode : Z) (stderr : string)
| Exception (text : string)
| SystemExit (code : Z)
| KeyboardInterrupt.

Inductive result (A : Type) : Type :=
| Ok (a : A)
| Raise (e : exn).
Arguments Ok {A} a.
Arguments Raise {A} e.

Inductive stream : Type := Stdout | Stderr.

(** The OpenAI client object: what [OpenAI(base_url=..., api_key=...)]
    stores. *)
Record OpenAI : Type := {
  base_url : string;
  api_key : string }.

(** The keyword arguments of [client.chat.completions.create]. A chat
    message is a dict from strings to strings. *)
Record CompletionRequest : Type := {
  model : string;
  messages : list (gmap string string);
  temperature : Z }.

(** The part of the answer the program reads:
    [chat_response.choices[i].message.content]. *)
Record ChatMessage : Type := { content : string }.
Record Choice : Type := { message : ChatMessage }.
Record ChatCompletion : Type := { choices : list Choice }.

(** How a call of [create] ends: with an answer, with an exception of
    the client library (a subclass of [Exception]), or interrupted from
    the keyboard, which can happen on the main thread only. The client
    built by [OpenAI(...)] keeps the default of the library, two
    retries: what is described here is the end of the call, after
    whatever the library sent on the wire inside it. *)
Inductive service_outcome : Type :=
| Answered (chat_response : ChatCompletion)
| ServiceError (text : string)
| ServiceInterrupted.

(** How [subprocess.run(..., capture_output=True, text=True)] ends before
    [check] is looked at: the child ran and exited; or it could not be
    run at all ([FileNotFoundError] when there is no [git],
    [NotADirectoryError] for a bad [cwd], a decoding error, ...), all of
    them subclasses of [Exception]; or the call was interrupted from the
    keyboard. Python raises [KeyboardInterrupt] on the main thread only,
    where the pipeline runs when the program is started without
    [--watch]. *)
Inductive process_outcome : Type :=
| Exited (returncode : Z) (stdout stderr : string)
| NotRun (text : string)
| Interrupted.

Inductive effect : Type :=
| Print (file : stream) (text : string)            (* print(text, file=file) *)
| Time                                             (* time.time() *)
| Strftime (format : string)                       (* time.strftime(format) *)
| Sleep (seconds : Z)                              (* time.sleep(seconds) *)
| Run (argv : list string) (cwd : string)          (* subprocess.run(argv, cwd=cwd, ...) *)
| NewOpenAI (c : OpenAI)                           (* OpenAI(base_url=..., api_key=...) *)
| Create (c : OpenAI) (request : CompletionRequest) (* c.chat.completions.create(...) *)
| Exists (path : string)                           (* os.path.exists(path) *)
| NewObserver                                      (* Observer() *)
| Schedule (path : string) (recursive : bool)      (* observer.schedule(handler, path, recursive=...) *)
| Start                                            (* observer.start() *)
| Stop                                             (* observer.stop() *)
| Join.                                            (* observer.join() *)

(** What the world answers. Timestamps are exact rationals, in seconds. *)
Record Env : Type := {
  env_time : Q;
  env_strftime : string -> string;
  env_run : list string -> string -> process_outcome;
  env_create : OpenAI -> CompletionRequest -> service_outcome;
  env_expanduser : string -> string;
  env_abspath : string -> string;
  env_exists : string -> bool;
  env_interrupt : nat  (* sleeps completed before Ctrl+C arrives *) }.

(** Computations over a mutable object of type [S]. *)
Definition Py (S A : Type) : Type :=
  Env -> S -> S * list effect * result A.

Definition ret {S A : Type} (a : A) : Py S A :=
  fun _ s => (s, [], Ok a).

Definition bind {S A B : Type} (c : Py S A) (k : A -> Py S B) : Py S B :=
  fun env s =>
    match c env s with
    | (s1, t1, Ok a) =>
        match k a env s1 with
        | (s2, t2, r) => (s2, t1 ++ t2, r)
        end
    | (s1, t1, Raise e) => (s1, t1, Raise e)
    end.

Definition raise {S A : Type} (e : exn) : Py S A :=
  fun _ s => (s, [], Raise e).

(** [try: body except: handler]; the handler re-raises what it does not
    catch. *)
Definition try_except {S A : Type} (body : Py S A) (handler : exn -> Py S A)
    : Py S A :=
  fun env s =>
    match body env s with
    | (s1, t1, Ok a) => (s1, t1, Ok a)
    | (s1, t1, Raise e) =>
        match handler e env s1 with
        | (s2, t2, r) => (s2, t1 ++ t2, r)
        end
    end.

Definition emit {S : Type} (e : effect) : Py S unit :=
  fun _ s => (s, [e], Ok tt).

Definition ask {S : Type} : Py S Env :=
  fun env s => (s, [], Ok env).

Definition get {S : Type} : Py S S :=
  fun _ s => (s, [], Ok s).

Definition put {S : Type} (s : S) : Py S unit :=
  fun _ _ => (s, [], Ok tt).

Declare Scope py_scope.
Delimit Scope py_scope with py.
Notation "x <- c1 ;; c2" := (bind c1 (fun x => c2))
  (at level 100, c1 at next level, right associativity) : py_scope.
Notation "c1 ;; c2" := (bind c1 (fun _ => c2))
  (at level 100, right associativity) : py_scope.

(** The library calls of [bot.py]. *)

Definition print {S : Type} (text : string) (file : stream) : Py S unit :=
  emit (Print file text).

Definition time_time {S : Type} : Py S Q :=
  (emit Time ;; env <- ask ;; ret (env_time env))%py.

Definition time_strftime {S : Type} (format : string) : Py S string :=
  (emit (Strftime format) ;; env <- ask ;; ret (env_strftime env format))%py.

Definition time_sleep {S : Type} (seconds : Z) : Py S unit :=
  emit (Sleep seconds).

(** [subprocess.run(argv, cwd=cwd, capture_output=True, text=True,
    check=True)]: with [check], a non-zero exit status is turned into
    [CalledProcessError], which carries the captured streams. The value
    returned is the completed process, of which the program reads
    [stdout] only. *)
Definition subprocess_run {S : Type} (argv : list string) (cwd : string)
    : Py S string :=
  (emit (Run argv cwd) ;;
   env <- ask ;;
   match env_run env argv cwd with
   | Exited returncode stdout stderr =>
       if (returncode =? 0)%Z then ret stdout
       else raise (CalledProcessError returncode stderr)
   | NotRun text => raise (Exception text)
   | Interrupted => raise KeyboardInterrupt
   end)%py.

(** One call of [c.chat.completions.create(...)]. *)
Definition chat_completions_create {S : Type} (c : OpenAI)
    (request : CompletionRequest) : Py S ChatCompletion :=
  (emit (Create c request) ;;
   env <- ask ;;
   match env_create env c request with
   | Answered chat_response => ret chat_response
   | ServiceError text => raise (Exception text)
   | ServiceInterrupted => raise KeyboardInterrupt
   end)%py.

Definition os_path_exists {S : Type} (path : string) : Py S bool :=
  (emit (Exists path) ;; env <- ask ;; ret (env_exists env path))%py.

(** [f"{n}"] for an [int]. *)
Definition str_of_int (n : Z) : string :=
  DecimalString.NilZero.string_of_int (Z.to_int n).

End Py.

(** ** The program *)

Module Bot.

Import Py.
Local Open Scope py_scope.

Definition DEFAULT_QUESTION : string :=
  "Process the context according to the task description.".

(** ["\n"] as a string. *)
Definition NL : string := String PyStr.LF EmptyString.

(** The [content] of the system message of [get_prompt], a literal
    without placeholders. *)
Definition SYSTEM_CONTENT : string := "
You are a problem solving model working on task_description XML block:
<task_description>## Task
Generate a concise yet informative git commit message draft from a `git diff` output. The message should include a title (under 50 characters) and optionally a body for additional context when necessary. The commit message should summarize the changes by identifying what was added, modified, or removed, and explain the purpose or impact of those changes in a clear, technical manner.

## Inputs
The raw output string from the `git diff` command, which shows changes between commits, commit and working tree, etc. This includes file paths, added/removed lines, and change context across multiple files. The diff may include code modifications, new files, deleted files, and comments indicating the nature of changes.

## Outputs
A string in conventional git commit message format: a title line (<=50 characters) followed by an optional blank line and a body paragraph for elaboration. The body should provide specific details about the changes made, including functionality added, bugs fixed, or architectural improvements. Omit the body if the title sufficiently describes the changes.</task_description>
You will be given a single task with context in the context XML block and the task in the question XML block
Solve the task in question block based on the context in context block.
Generate only the answer, do not generate anything else
".

Module DistilLabsLLM.

Record t : Type := {
  model_name : string;
  client : OpenAI }.

(** [__init__(self, model_name, api_key="EMPTY", port=11434)]. *)
Definition init {S : Type} (model_name api_key : string) (port : Z) : Py S t :=
  let c := {| base_url := "http://127.0.0.1:" +:+ str_of_int port +:+ "/v1";
              api_key := api_key |} in
  emit (NewOpenAI c) ;;
  ret {| model_name := model_name; client := c |}.

Definition get_prompt (self : t) (question context : string)
    : list (gmap string string) :=
  [ {[ "role" := "system"; "content" := SYSTEM_CONTENT ]};
    {[ "role" := "user";
       "content" := "

Now for the real task, solve the task in question block based on the context in context block.
Generate only the solution, do not generate anything else
<context>" +:+ context +:+ "</context>
<question>" +:+ question +:+ "</question>
" ]} ].

Definition invoke {S : Type} (self : t) (question context : string)
    : Py S string :=
  chat_response <-
    chat_completions_create (client self)
      {| model := model_name self;
         messages := get_prompt self question context;
         temperature := 0 |} ;;
  match choices chat_response with
  | c :: _ => ret (content (message c))
  | [] => raise (Exception "list index out of range")
  end.

End DistilLabsLLM.

(** The pattern of [run_git_diff_analysis]: [(@@[^@]*@@).*]. *)
Definition hunk_re : Re.regex :=
  Re.Seq
    (Re.Group
       (Re.Seq (Re.Chr (Re.Lit "@"))
          (Re.Seq (Re.Chr (Re.Lit "@"))
             (Re.Seq (Re.Star (Re.NotIn "@"))
                (Re.Seq (Re.Chr (Re.Lit "@")) (Re.Chr (Re.Lit "@")))))))
    (Re.Star Re.Dot).

(** The generator expression of lines 83-86, for one line:
    [re.sub(r"(@@[^@]*@@).*", r"\1", line) if line.startswith("@@") else line]. *)
Definition normalize_line (line : string) : string :=
  if PyStr.startswith line "@@" then Re.sub1 hunk_re line else line.

(** Lines 83-86 as a whole: split at line feeds, rewrite each line, join
    again. The spec calls this transform DiffNormalizer. *)
Definition normalize_diff (context : string) : string :=
  PyStr.join NL (normalize_line <$> PyStr.split PyStr.LF context).

(** The command line of [run_git_diff_analysis]. *)
Definition git_diff : list string :=
  ["git"; "diff"; "--no-ext-diff"; "-U0"; "HEAD"].

(** The two [except] clauses of [run_git_diff_analysis]. Both end in
    [return], rendered as [None]; what neither clause catches is raised
    again. *)
Definition diff_except {S : Type} (e : exn) : Py S (option string) :=
  match e with
  | CalledProcessError _ stderr =>
      print ("Error running git diff: " +:+ stderr) Stderr ;; ret None
  | Exception text =>
      print ("Error: " +:+ text) Stderr ;; ret None
  | SystemExit _ | KeyboardInterrupt => raise e
  end.

Definition run_git_diff_analysis {S : Type} (repository_path : string)
    (client : DistilLabsLLM.t) : Py S unit :=
  caught <-
    try_except
      (stdout <- subprocess_run git_diff repository_path ;;
       ret (Some (normalize_diff stdout)))
      diff_except ;;
  match caught with
  | None => ret tt
  | Some context =>
      if PyStr.falsy context then print "No changes found" Stdout
      else
        print (NL +:+ PyStr.repeat "=" 60) Stdout ;;
        now <- time_strftime "%Y-%m-%d %H:%M:%S" ;;
        print ("Changes detected at " +:+ now) Stdout ;;
        print "" Stdout ;;
        print "Generating commit message suggestion" Stdout ;;
        print (PyStr.repeat "=" 60 +:+ NL) Stdout ;;
        print "" Stdout ;;
        answer <- DistilLabsLLM.invoke client DEFAULT_QUESTION context ;;
        print answer Stdout
  end.

(** What the handler reads of a watchdog event. *)
Record FileSystemEvent : Type := {
  src_path : string;
  is_directory : bool }.

Module RepositoryChangeHandler.

Record t : Type := {
  repository_path : string;
  client : DistilLabsLLM.t;
  debounce_seconds : Q;
  last_trigger_time : Q }.

(** The default of the [debounce_seconds] parameter of [__init__]. *)
Definition default_debounce_seconds : Q := 10.

Definition init (repository_path : string) (client : DistilLabsLLM.t)
    (debounce_seconds : Q) : t :=
  {| repository_path := repository_path;
     client := client;
     debounce_seconds := debounce_seconds;
     last_trigger_time := 0 |}.

(** [self.last_trigger_time = current_time]. *)
Definition set_last_trigger_time (self : t) (current_time : Q) : t :=
  {| repository_path := repository_path self;
     client := client self;
     debounce_seconds := debounce_seconds self;
     last_trigger_time := current_time |}.

Definition on_any_event (event : FileSystemEvent) : Py t unit :=
  self <- get ;;
  if PyStr.contains ".git" (src_path event) || is_directory event then ret tt
  else
    current_time <- time_time ;;
    if Qle_bool (debounce_seconds self) (current_time - last_trigger_time self)
    then
      put (set_last_trigger_time self current_time) ;;
      run_git_diff_analysis (repository_path self) (client self)
    else ret tt.

End RepositoryChangeHandler.

(** The namespace [parser.parse_args()] returns. *)
Module Args.

Record t : Type := {
  api_key : string;
  model : string;
  port : Z;
  repository : string;
  watch : bool }.

End Args.

(** [while True: time.sleep(1)], left only by the [KeyboardInterrupt]
    that arrives after [n] completed sleeps. *)
Fixpoint wait_for_interrupt {S : Type} (n : nat) : Py S unit :=
  match n with
  | O => raise KeyboardInterrupt
  | S n' => time_sleep 1 ;; wait_for_interrupt n'
  end.

(** The [if __name__ == "__main__":] block, after argument parsing. The
    state is the module-level variable [event_handler], unbound at the
    start. *)
Definition main (args : Args.t) : Py (option RepositoryChangeHandler.t) unit :=
  env <- ask ;;
  let repository_path :=
    env_abspath env (env_expanduser env (Args.repository args)) in
  path_exists <- os_path_exists repository_path ;;
  (if negb path_exists then
     print ("Error: Repository path does not exist: " +:+ repository_path)
       Stderr ;;
     raise (SystemExit 1)
   else ret tt) ;;
  client <-
    DistilLabsLLM.init (Args.model args) (Args.api_key args) (Args.port args) ;;
  if Args.watch args then
    print ("Watching repository: " +:+ repository_path) Stdout ;;
    print ("Press Ctrl+C to stop..." +:+ NL) Stdout ;;
    put (Some (RepositoryChangeHandler.init repository_path client
                 RepositoryChangeHandler.default_debounce_seconds)) ;;
    emit NewObserver ;;
    emit (Schedule repository_path true) ;;
    emit Start ;;
    try_except
      (wait_for_interrupt (env_interrupt env))
      (fun e =>
         match e with
         | KeyboardInterrupt =>
             emit Stop ;;
             print (NL +:+ "Stopped watching repository") Stdout
         | _ => raise e
         end) ;;
    emit Join
  else
    print "Try --watch to watch for file changes and run continuously" Stdout ;;
    run_git_diff_analysis repository_path client.

(** The exit status of the process for the way [main] ends:
    [sys.exit(n)] gives [n], falling off the end gives 0, an uncaught
    exception that derives from [Exception] gives 1. On an uncaught
    [KeyboardInterrupt] the interpreter (3.9 or later, which the type
    hints of [bot.py] need) ends the process by the interrupt signal,
    which a shell reports as 130. *)
Definition exit_status (r : result unit) : Z :=
  match r with
  | Ok _ => 0
  | Raise (SystemExit code) => code
  | Raise (CalledProcessError _ _) | Raise (Exception _) => 1
  | Raise KeyboardInterrupt => 130
  end.

(** Calling [on_any_event] on one handler object for each event of a
    queue in turn, each with the answers of the world at that moment;
    what each call did is recorded separately. *)
Fixpoint handle_events (queue : list (Env * FileSystemEvent))
    (self : RepositoryChangeHandler.t)
    : RepositoryChangeHandler.t * list (list effect * result unit) :=
  match queue with
  | [] => (self, [])
  | (env, event) :: queue' =>
      match RepositoryChangeHandler.on_any_event event env self with
      | (self', trace, r) =>
          match handle_events queue' self' with
          | (self'', outcomes) => (self'', (trace, r) :: outcomes)
          end
      end
  end.

(** The dispatching thread of the watchdog observer, which is not part of
    the repository: it takes the events from its queue one at a time and
    hands each to the handler; an exception that escapes the handler ends
    the thread, and the events still queued are never delivered. *)
Fixpoint observer_run (queue : list (Env * FileSystemEvent))
    (self : RepositoryChangeHandler.t)
    : RepositoryChangeHandler.t * list effect * result unit :=
  match queue with
  | [] => (self, [], Ok tt)
  | (env, event) :: queue' =>
      match RepositoryChangeHandler.on_any_event event env self with
      | (self', trace, Ok _) =>
          match observer_run queue' self' with
          | (self'', trace', r) => (self'', trace ++ trace', r)
          end
      | (self', trace, Raise e) => (self', trace, Raise e)
      end
  end.

End Bot.

(** ** Auxiliary functions used in the statements *)

Module Scan.

(** Every character of [s] is in the set. *)
Fixpoint all_in (cs : Re.charset) (s : string) : bool :=
  match s with
  | EmptyString => true
  | String a s' => Re.accepts cs a && all_in cs s'
  end.

(** [t] is empty or starts with a character outside the set: a star over
    the set cannot enter [t]. *)
Definition stops (cs : Re.charset) (t : string) : bool :=
  match t with
  | EmptyString => true
  | String a _ => negb (Re.accepts cs a)
  end.

(** The longest prefix of [s] inside the set, and what follows it. *)
Fixpoint take_while (cs : Re.charset) (s : string) : string :=
  match s with
  | EmptyString => EmptyString
  | String a s' =>
      if Re.accepts cs a then String a (take_while cs s') else EmptyString
  end.

Fixpoint drop_while (cs : Re.charset) (s : string) : string :=
  match s with
  | EmptyString => EmptyString
  | String a s' => if Re.accepts cs a then drop_while cs s' else s
  end.

(** No '@' in [s], and no line feed in [s]. *)
Definition no_at (s : string) : bool := all_in (Re.NotIn "@") s.
Definition no_lf (s : string) : bool := all_in Re.Dot s.

(** A marker pair [@@ ... @@] with no '@' in between starts [s]: the
    strings on which group 1 of the pattern matches at position 0. *)
Definition marker_pair (s : string) : Prop :=
  exists r t, s = "@@" +:+ r +:+ "@@" +:+ t /\ no_at r = true.

(** What [re.sub] leaves of a string without line feeds: the text up to
    and including the first marker pair, or all of it if there is none. *)
Fixpoint cut (s : string) : string :=
  match s with
  | EmptyString => EmptyString
  | String a s' =>
      match Re.match_at Bot.hunk_re s with
      | Some (_, g) => Re.expand1 s g
      | None => String a (cut s')
      end
  end.

End Scan.

(** ** Reading a trace *)

Module Trace.

Import Py.

Definition state_of {S A : Type} (x : S * list effect * result A) : S :=
  fst (fst x).

Definition trace_of {S A : Type} (x : S * list effect * result A)
    : list effect :=
  snd (fst x).

Definition result_of {S A : Type} (x : S * list effect * result A)
    : result A :=
  snd x.

(** The keyword arguments [invoke] passes to the endpoint. *)
Definition request_of (self : Bot.DistilLabsLLM.t) (question context : string)
    : CompletionRequest :=
  {| model := Bot.DistilLabsLLM.model_name self;
     messages := Bot.DistilLabsLLM.get_prompt self question context;
     temperature := 0 |}.

(** The requests handed to the completion client, in order: one for
    each call of [create], whatever the client library does with it on
    the wire. *)
Fixpoint requests (trace : list effect) : list CompletionRequest :=
  match trace with
  | [] => []
  | Create _ request :: trace' => request :: requests trace'
  | _ :: trace' => requests trace'
  end.

(** The number of [git diff] runs, one per run of the pipeline. *)
Fixpoint runs (trace : list effect) : nat :=
  match trace with
  | [] => 0
  | Run _ _ :: trace' => S (runs trace')
  | _ :: trace' => runs trace'
  end.

(** The clock was read with [time.time()]: the handler got as far as
    its debounce check. *)
Fixpoint read_clock (trace : list effect) : bool :=
  match trace with
  | [] => false
  | Time :: _ => true
  | _ :: trace' => read_clock trace'
  end.

(** A call of the handler triggered the pipeline. *)
Definition triggered (outcome : list effect * result unit) : bool :=
  negb (Nat.eqb (runs (fst outcome)) 0).

(** The number of calls that triggered the pipeline. *)
Definition triggers (outcomes : list (list effect * result unit)) : nat :=
  length (filter (fun o => triggered o = true) outcomes).

End Trace.

(** ** Notions of the specification that the program does not compute *)

Module Spec.

(** [needle] occurs in [hay]. *)
Definition occurs_in (needle hay : string) : Prop :=
  exists pre post, hay = pre +:+ needle +:+ post.



(** An event that passes the filter of [on_any_event]. *)
Definition qualifying (event : Bot.FileSystemEvent) : Prop :=
  Bot.is_directory event = false /\
  ~ occurs_in ".git" (Bot.src_path event).

(** The gate of [on_any_event] lets an event at clock reading [now]
    pass: [now - last_trigger_time >= debounce_seconds]. *)
Definition gate_open (self : Bot.RepositoryChangeHandler.t) (now : Q) : Prop :=
  (Bot.RepositoryChangeHandler.debounce_seconds self <=
     now - Bot.RepositoryChangeHandler.last_trigger_time self)%Q.

(** The clock reading at which a queued event is handled. *)
Definition arrival (p : Py.Env * Bot.FileSystemEvent) : Q :=
  Py.env_time (fst p).

End Spec.

(** * Sample answers of the world, for the concrete runs *)

Module Sample.

Import Py Bot.

Definition llm : DistilLabsLLM.t :=
  {| DistilLabsLLM.model_name := "commit-bot-llama-1.0-1B";
     DistilLabsLLM.client :=
       {| base_url := "http://127.0.0.1:11434/v1"; api_key := "EMPTY" |} |}.

Definition answer : ChatCompletion :=
  {| choices :=
       [ {| message := {| content := "Fix typo in README" |} |};
         {| message := {| content := "Update README" |} |} ] |}.

(** A world at clock reading [now] in which [git diff] ends as [diff]
    says and the endpoint always answers with [answer]. *)
Definition world (now : Q) (diff : process_outcome) : Env :=
  {| env_time := now;
     env_strftime := fun _ => "2025-11-04 07:06:40";
     env_run := fun _ _ => diff;
     env_create := fun _ _ => Answered answer;
     env_expanduser := fun path => path;
     env_abspath := fun path => path;
     env_exists := fun path => String.eqb path "/home/dev/project";
     env_interrupt := 3 |}.

Definition handler : RepositoryChangeHandler.t :=
  RepositoryChangeHandler.init "/home/dev/project" llm
    RepositoryChangeHandler.default_debounce_seconds.

Definition saved (path : string) : FileSystemEvent :=
  {| src_path := path; is_directory := false |}.

End Sample.

(** ** Vocabulary of the further properties *)

Module More.

Import Py.

(** What the pipeline prints before it calls the completion client. *)
Definition banner (env : Env) : list effect :=
  [Print Stdout (Bot.NL +:+ PyStr.repeat "=" 60);
   Strftime "%Y-%m-%d %H:%M:%S";
   Print Stdout
     ("Changes detected at " +:+ env_strftime env "%Y-%m-%d %H:%M:%S");
   Print Stdout "";
   Print Stdout "Generating commit message suggestion";
   Print Stdout (PyStr.repeat "=" 60 +:+ Bot.NL);
   Print Stdout ""].

(** The commands run as subprocesses, each with its working directory. *)
Fixpoint commands (trace : list effect) : list (list string * string) :=
  match trace with
  | [] => []
  | Run argv cwd :: trace' => (argv, cwd) :: commands trace'
  | _ :: trace' => commands trace'
  end.

(** The clock readings of the events of a queue that triggered the
    pipeline, given what each call of the handler did. *)
Fixpoint trigger_times (queue : list (Env * Bot.FileSystemEvent))
    (outcomes : list (list effect * result unit)) : list Q :=
  match queue, outcomes with
  | p :: queue', o :: outcomes' =>
      if Trace.triggered o then Spec.arrival p :: trigger_times queue' outcomes'
      else trigger_times queue' outcomes'
  | _, _ => []
  end.

(** Every later reading of the list is at least [interval] after every
    earlier one. *)
Fixpoint spaced (interval : Q) (times : list Q) : Prop :=
  match times with
  | [] => True
  | t :: times' =>
      Forall (fun u => (interval <= u - t)%Q) times' /\ spaced interval times'
  end.

(** Every call of [create] in the trace comes after a [git diff] run
    ([ran] says whether one has been seen so far). *)
Fixpoint create_after_run (ran : bool) (trace : list effect) : bool :=
  match trace with
  | [] => true
  | Run _ _ :: trace' => create_after_run true trace'
  | Create _ _ :: trace' => ran && create_after_run ran trace'
  | _ :: trace' => create_after_run ran trace'
  end.

(** The trace has no effect on an observer. *)
Fixpoint observer_free (trace : list effect) : bool :=
  match trace with
  | [] => true
  | (NewObserver | Schedule _ _ | Start | Stop | Join) :: _ => false
  | _ :: trace' => observer_free trace'
  end.

End More.

(** * Facts about strings *)

Section string_facts.

Lemma append_cons (a : ascii) (s t : string) :
  String a s +:+ t = String a (s +:+ t).
Proof. reflexivity. Qed.

Lemma append_nil_l (s : string) : EmptyString +:+ s = s.
Proof. reflexivity. Qed.

Lemma append_nil_r (s : string) : s +:+ EmptyString = s.
Proof. induction s as [|a s IH]; [done|]. by rewrite append_cons, IH. Qed.

Lemma append_assoc (s t u : string) : (s +:+ t) +:+ u = s +:+ (t +:+ u).
Proof.
  induction s as [|a s IH]; [done|]. by rewrite !append_cons, IH.
Qed.

Lemma length_append (s t : string) :
  String.length (s +:+ t) = String.length s + String.length t.
Proof.
  induction s as [|a s IH]; [done|]. rewrite append_cons. simpl. by rewrite IH.
Qed.

Lemma substring_prefix (p t : string) :
  String.substring 0 (String.length p) (p +:+ t) = p.
Proof.
  induction p as [|a p IH]; simpl.
  - by destruct t.
  - by rewrite IH.
Qed.

Lemma drop_append (p t : string) : PyStr.drop (String.length p) (p +:+ t) = t.
Proof. induction p as [|a p IH]; simpl; [by destruct t|done]. Qed.

Lemma prefix_append (p t : string) : String.prefix p (p +:+ t) = true.
Proof.
  induction p as [|a p IH]; simpl; [by destruct t|].
  destruct (ascii_dec a a); [done|congruence].
Qed.

Lemma prefix_split (p s : string) :
  String.prefix p s = true -> exists t, s = p +:+ t.
Proof.
  revert s. induction p as [|a p IH]; intros s H.
  - by exists s.
  - destruct s as [|b s]; simpl in H; [done|].
    destruct (ascii_dec a b) as [->|]; [|done].
    destruct (IH _ H) as [t ->]. by exists t.
Qed.

End string_facts.

(** * Facts about the matcher *)

Section re_facts.

Import Scan.

Lemma span_decompose (cs : Re.charset) (s : string) :
  s = take_while cs s +:+ drop_while cs s /\
  all_in cs (take_while cs s) = true /\ stops cs (drop_while cs s) = true.
Proof.
  induction s as [|a s (IH1 & IH2 & IH3)]; [done|]. simpl.
  destruct (Re.accepts cs a) eqn:Ha; simpl.
  - rewrite Ha, IH2. repeat split; [|done]. rewrite append_cons. by f_equal.
  - by rewrite Ha.
Qed.

(** When the rest of the pattern cannot start with a character of the
    set, backtracking into the star never helps: only the longest run is
    tried with success. *)
Lemma star_exact (cs : Re.charset) (r t : string) (pos : nat)
    (k : string -> nat -> option Re.result) :
  all_in cs r = true -> stops cs t = true ->
  (forall a s p, Re.accepts cs a = true -> k (String a s) p = None) ->
  Re.star cs (r +:+ t) pos k = k t (pos + String.length r).
Proof.
  intros Hr Ht Hk. revert pos. induction r as [|a r IH]; intros pos.
  - simpl. rewrite Nat.add_0_r. destruct t as [|b t]; [done|]. simpl in *.
    by destruct (Re.accepts cs b).
  - simpl in *. apply andb_prop in Hr as [Ha Hr]. rewrite Ha, (IH Hr).
    replace (S pos + String.length r) with (pos + S (String.length r)) by lia.
    destruct (k t _); [done|]. by apply Hk.
Qed.

(** When the rest of the pattern succeeds after the longest run, that is
    the match reported. *)
Lemma star_greedy (cs : Re.charset) (r t : string) (pos : nat)
    (k : string -> nat -> option Re.result) (res : Re.result) :
  all_in cs r = true -> stops cs t = true ->
  k t (pos + String.length r) = Some res ->
  Re.star cs (r +:+ t) pos k = Some res.
Proof.
  intros Hr Ht. revert pos. induction r as [|a r IH]; intros pos Hk.
  - simpl in *. rewrite Nat.add_0_r in Hk. destruct t as [|b t]; [done|].
    simpl in *. by destruct (Re.accepts cs b).
  - simpl in *. apply andb_prop in Hr as [Ha Hr]. rewrite Ha, (IH Hr); [done|].
    by replace (S pos + String.length r) with (pos + S (String.length r)) by lia.
Qed.

Lemma match_at_marker (r t : string) :
  no_at r = true ->
  Re.match_at Bot.hunk_re ("@@" +:+ r +:+ "@@" +:+ t) =
    Some (4 + String.length r + String.length (take_while Re.Dot t),
          Some (0, 4 + String.length r)).
Proof.
  intros Hr. unfold Re.match_at, Bot.hunk_re. 
  rewrite !append_cons, append_nil_l. simpl.
  rewrite (star_exact (Re.NotIn "@") r ("@@" +:+ t)); [|done|done|].
  2:{ intros a s p Ha. simpl in Ha. destruct (Ascii.eqb_spec a "@"); done. }
  rewrite !append_cons, append_nil_l. simpl.
  destruct (span_decompose Re.Dot t) as (Ht & H1 & H2).
  rewrite Ht at 1.
  by apply star_greedy.
Qed.

Lemma match_at_inv (s : string) (res : Re.result) :
  Re.match_at Bot.hunk_re s = Some res -> marker_pair s.
Proof.
  unfold Re.match_at, Bot.hunk_re. simpl.
  destruct s as [|a [|b s]]; simpl; [done|by destruct (a =? "@")%char|].
  destruct (Ascii.eqb_spec a "@") as [->|]; [|done].
  destruct (Ascii.eqb_spec b "@") as [->|]; [|done].
  destruct (span_decompose (Re.NotIn "@") s) as (Hs & H1 & H2).
  rewrite Hs at 1.
  rewrite star_exact; [|done|done|].
  2:{ intros c u p Hc. simpl in Hc. by destruct (Ascii.eqb_spec c "@"). }
  destruct (drop_while (Re.NotIn "@") s) as [|c [|d u]] eqn:Hd; simpl; [done|by destruct (c =? "@")%char|].
  destruct (Ascii.eqb_spec c "@") as [->|]; [|done].
  destruct (Ascii.eqb_spec d "@") as [->|]; [|done].
  intros _. exists (take_while (Re.NotIn "@") s), u. split; [|done].
  by rewrite Hs at 1.
Qed.


Lemma sub1_nil (r : Re.regex) :
  Re.sub1 r EmptyString =
    match Re.match_at r EmptyString with
    | Some (_, g) => Re.expand1 EmptyString g
    | None => EmptyString
    end.
Proof. simp sub1. by destruct (Re.match_at r EmptyString) as [[n g]|]. Qed.

Lemma sub1_cons (r : Re.regex) (a : ascii) (s' : string) :
  Re.sub1 r (String a s') =
    match Re.match_at r (String a s') with
    | Some (S n, g) => Re.expand1 (String a s') g +:+ Re.sub1 r (PyStr.drop n s')
    | Some (O, g) => Re.expand1 (String a s') g +:+ String a (Re.sub1 r s')
    | None => String a (Re.sub1 r s')
    end.
Proof. simp sub1. by destruct (Re.match_at r (String a s')) as [[[|n] g]|]. Qed.

Lemma all_in_append (cs : Re.charset) (s t : string) :
  all_in cs (s +:+ t) = all_in cs s && all_in cs t.
Proof.
  induction s as [|a s IH]; [done|]. rewrite append_cons. simpl.
  by rewrite IH, andb_assoc.
Qed.

Lemma take_while_all (cs : Re.charset) (s : string) :
  all_in cs s = true -> take_while cs s = s.
Proof.
  induction s as [|a s IH]; [done|]. simpl. intros [-> H]%andb_prop.
  by rewrite IH.
Qed.

Lemma expand1_marker (r t : string) :
  Re.expand1 ("@@" +:+ r +:+ "@@" +:+ t) (Some (0, 4 + String.length r)) =
    "@@" +:+ r +:+ "@@".
Proof.
  unfold Re.expand1, PyStr.slice. rewrite Nat.sub_0_r.
  replace (4 + String.length r) with (String.length ("@@" +:+ r +:+ "@@")).
  - rewrite <- (substring_prefix ("@@" +:+ r +:+ "@@") t) at 2.
    by rewrite !append_assoc.
  - rewrite !length_append. simpl. lia.
Qed.


Lemma cut_match (s : string) (n : nat) (g : option Re.span) :
  Re.match_at Bot.hunk_re s = Some (n, g) -> cut s = Re.expand1 s g.
Proof. destruct s as [|a s]; [done|]. simpl cut. by intros ->. Qed.

Lemma cut_nomatch (a : ascii) (s : string) :
  Re.match_at Bot.hunk_re (String a s) = None ->
  cut (String a s) = String a (cut s).
Proof. simpl cut. by intros ->. Qed.

Lemma cut_marker (r t : string) :
  no_at r = true -> cut ("@@" +:+ r +:+ "@@" +:+ t) = "@@" +:+ r +:+ "@@".
Proof.
  intros Hr. rewrite (cut_match _ _ _ (match_at_marker r t Hr)).
  apply expand1_marker.
Qed.

Lemma cut_prefix (s : string) : exists u, s = cut s +:+ u.
Proof.
  induction s as [|a s [u IH]]; [by exists EmptyString|].
  destruct (Re.match_at Bot.hunk_re (String a s)) as [[n g]|] eqn:Hm.
  - destruct (match_at_inv _ _ Hm) as (r & t & Hs & Hr).
    rewrite Hs. exists t. rewrite (cut_marker r t Hr).
    by rewrite !append_assoc.
  - rewrite (cut_nomatch _ _ Hm). exists u. rewrite append_cons. by f_equal.
Qed.

Lemma marker_pair_match (s : string) :
  marker_pair s -> exists res, Re.match_at Bot.hunk_re s = Some res.
Proof. intros (r & t & -> & Hr). rewrite (match_at_marker r t Hr). eauto. Qed.

Lemma marker_pair_extend (s u : string) : marker_pair s -> marker_pair (s +:+ u).
Proof.
  intros (r & t & -> & Hr). exists r, (t +:+ u). split; [|done].
  by rewrite !append_assoc.
Qed.

Lemma cut_idempotent (s : string) : cut (cut s) = cut s.
Proof.
  induction s as [|a s IH]; [done|].
  destruct (Re.match_at Bot.hunk_re (String a s)) as [[n g]|] eqn:Hm.
  - destruct (match_at_inv _ _ Hm) as (r & t & Hs & Hr). rewrite Hs.
    rewrite (cut_marker r t Hr).
    pose proof (cut_marker r EmptyString Hr) as H. by rewrite append_nil_r in H.
  - rewrite (cut_nomatch _ _ Hm).
    destruct (Re.match_at Bot.hunk_re (String a (cut s))) as [res|] eqn:Hm'.
    + exfalso. destruct (cut_prefix s) as [u Hu].
      apply match_at_inv in Hm'. apply (marker_pair_extend _ u) in Hm'.
      rewrite append_cons, <- Hu in Hm'.
      apply marker_pair_match in Hm' as [res' Hm']. congruence.
    + by rewrite (cut_nomatch _ _ Hm'), IH.
Qed.

Lemma match_at_length (s : string) (n : nat) (g : option Re.span) :
  no_lf s = true -> Re.match_at Bot.hunk_re s = Some (n, g) ->
  n = String.length s.
Proof.
  intros Hs Hm. destruct (match_at_inv _ _ Hm) as (r & t & -> & Hr).
  rewrite (match_at_marker r t Hr) in Hm. injection Hm as <- _.
  unfold no_lf in Hs. rewrite !all_in_append in Hs.
  apply andb_prop in Hs as [_ [_ [_ Ht]%andb_prop]%andb_prop].
  rewrite (take_while_all _ _ Ht), !length_append. simpl. lia.
Qed.

Lemma drop_all (s : string) : PyStr.drop (String.length s) s = EmptyString.
Proof. induction s as [|a s IH]; [done|]. by simpl. Qed.

Lemma sub1_cut (s : string) : no_lf s = true -> Re.sub1 Bot.hunk_re s = cut s.
Proof.
  induction s as [|a s IH]; intros Hs; [by rewrite sub1_nil|].
  rewrite sub1_cons.
  destruct (Re.match_at Bot.hunk_re (String a s)) as [[n g]|] eqn:Hm.
  - rewrite (cut_match _ _ _ Hm). pose proof (match_at_length _ _ _ Hs Hm) as ->.
    cbn [String.length]. cbv iota beta. rewrite drop_all, sub1_nil. simpl. by rewrite append_nil_r.
  - rewrite (cut_nomatch _ _ Hm). f_equal. apply IH.
    simpl in Hs. by apply andb_prop in Hs as [_ ?].
Qed.

End re_facts.

(** * Facts about splitting into lines and joining *)

Section line_facts.

Import Scan.

Lemma no_lf_cons (a : ascii) (s : string) :
  no_lf (String a s) = true <-> a <> PyStr.LF /\ no_lf s = true.
Proof.
  unfold no_lf. simpl. rewrite andb_true_iff, negb_true_iff.
  by destruct (Ascii.eqb_spec a PyStr.LF); intuition.
Qed.

Lemma split_no_lf (s : string) :
  no_lf s = true -> PyStr.split PyStr.LF s = [s].
Proof.
  induction s as [|a s IH]; [done|]. intros [Ha Hs]%no_lf_cons. simpl.
  destruct (Ascii.eqb_spec a PyStr.LF); [done|]. by rewrite (IH Hs).
Qed.

Lemma split_append_lf (l x : string) :
  no_lf l = true ->
  PyStr.split PyStr.LF (l +:+ Bot.NL +:+ x) = l :: PyStr.split PyStr.LF x.
Proof.
  induction l as [|a l IH].
  - intros _. by rewrite append_nil_l.
  - intros [Ha Hl]%no_lf_cons. rewrite append_cons. simpl.
    destruct (Ascii.eqb_spec a PyStr.LF); [done|]. by rewrite (IH Hl).
Qed.

Lemma split_nonempty (s : string) : PyStr.split PyStr.LF s <> [].
Proof.
  induction s as [|a s IH]; [done|]. simpl.
  destruct (a =? PyStr.LF)%char; [done|]. by destruct (PyStr.split _ s).
Qed.

Lemma split_lines_no_lf (s : string) :
  Forall (fun l => no_lf l = true) (PyStr.split PyStr.LF s).
Proof.
  induction s as [|a s IH]; [by repeat constructor|]. simpl.
  destruct (Ascii.eqb_spec a PyStr.LF); [by constructor|].
  destruct (PyStr.split _ s) as [|l ls]; [by repeat constructor; apply no_lf_cons|].
  inversion_clear IH. constructor; [by apply no_lf_cons|done].
Qed.

Lemma join_cons (l : string) (ls : list string) :
  ls <> [] -> PyStr.join Bot.NL (l :: ls) = l +:+ Bot.NL +:+ PyStr.join Bot.NL ls.
Proof. by destruct ls. Qed.

Lemma split_join (ls : list string) :
  ls <> [] -> Forall (fun l => no_lf l = true) ls ->
  PyStr.split PyStr.LF (PyStr.join Bot.NL ls) = ls.
Proof.
  induction ls as [|l ls IH]; [done|]. intros _ Hls. inversion_clear Hls as [|?? Hl Hls'].
  destruct ls as [|l' ls]; [by apply split_no_lf|].
  rewrite join_cons by done. rewrite (split_append_lf _ _ Hl). f_equal. by apply IH.
Qed.

Lemma join_split (s : string) : PyStr.join Bot.NL (PyStr.split PyStr.LF s) = s.
Proof.
  induction s as [|a s IH]; [done|]. simpl.
  pose proof (split_nonempty s) as Hne.
  destruct (Ascii.eqb_spec a PyStr.LF) as [->|].
  - rewrite join_cons by done. by rewrite IH.
  - destruct (PyStr.split PyStr.LF s) as [|l ls]; [done|].
    destruct ls as [|l' ls]; simpl in *; [by rewrite IH|].
    by rewrite <- IH.
Qed.

End line_facts.

(** * Facts about the normalizer *)

Section normalize_facts.

Import Scan.

Lemma cut_no_lf (s : string) : no_lf s = true -> no_lf (cut s) = true.
Proof.
  intros Hs. destruct (cut_prefix s) as [u Hu]. rewrite Hu in Hs.
  unfold no_lf in *. rewrite all_in_append in Hs. by apply andb_prop in Hs as [? _].
Qed.

Lemma normalize_line_cut (l : string) :
  no_lf l = true ->
  Bot.normalize_line l = if PyStr.startswith l "@@" then cut l else l.
Proof.
  intros Hl. unfold Bot.normalize_line. by rewrite (sub1_cut _ Hl).
Qed.

Lemma normalize_line_no_lf (l : string) :
  no_lf l = true -> no_lf (Bot.normalize_line l) = true.
Proof.
  intros Hl. rewrite (normalize_line_cut _ Hl).
  destruct (PyStr.startswith l "@@"); [by apply cut_no_lf|done].
Qed.

Lemma normalize_line_idempotent (l : string) :
  no_lf l = true ->
  Bot.normalize_line (Bot.normalize_line l) = Bot.normalize_line l.
Proof.
  intros Hl. rewrite (normalize_line_cut l Hl).
  destruct (PyStr.startswith l "@@") eqn:Hp.
  - rewrite (normalize_line_cut _ (cut_no_lf _ Hl)), cut_idempotent.
    by destruct (PyStr.startswith (cut l) "@@").
  - by rewrite (normalize_line_cut l Hl), Hp.
Qed.

Lemma normalize_lines_no_lf (ls : list string) :
  Forall (fun l => no_lf l = true) ls ->
  Forall (fun l => no_lf l = true) (Bot.normalize_line <$> ls).
Proof.
  intros H. apply Forall_fmap. eapply Forall_impl; [done|].
  intros l Hl. by apply normalize_line_no_lf.
Qed.

End normalize_facts.

(** C3. The normalizer of [run_git_diff_analysis] is idempotent: applied
    to its own output it returns that output unchanged, for every diff
    text. *)
Theorem normalize_diff_idempotent (x : string) :
  Bot.normalize_diff (Bot.normalize_diff x) = Bot.normalize_diff x.
Proof.
  unfold Bot.normalize_diff.
  pose proof (split_lines_no_lf x) as Hx.
  rewrite split_join.
  - f_equal. rewrite <- list_fmap_compose. apply Forall_fmap_ext_1.
    eapply Forall_impl; [exact Hx|]. intros l Hl. by apply normalize_line_idempotent.
  - intros H%fmap_nil_inv. by apply (split_nonempty x).
  - by apply normalize_lines_no_lf.
Qed.

Section normalize_more.

Import Scan.

Lemma match_at_nil : Re.match_at Bot.hunk_re EmptyString = None.
Proof. reflexivity. Qed.

(** A match that reaches the end of the string is the only replacement
    made. *)
Lemma sub1_whole (s : string) (g : option Re.span) :
  Re.match_at Bot.hunk_re s = Some (String.length s, g) ->
  Re.sub1 Bot.hunk_re s = Re.expand1 s g.
Proof.
  destruct s as [|a s]; [by rewrite match_at_nil|]. intros Hm.
  rewrite sub1_cons, Hm. cbn [String.length]. cbv iota beta.
  by rewrite drop_all, sub1_nil, match_at_nil, append_nil_r.
Qed.

Lemma sub1_marker (r t : string) :
  no_at r = true -> no_lf t = true ->
  Re.sub1 Bot.hunk_re ("@@" +:+ r +:+ "@@" +:+ t) = "@@" +:+ r +:+ "@@".
Proof.
  intros Hr Ht. rewrite <- (expand1_marker r t). apply sub1_whole.
  rewrite (match_at_marker r t Hr), (take_while_all _ _ Ht).
  do 2 f_equal. rewrite !length_append. simpl. lia.
Qed.

(** Where no marker pair starts, the scan copies the prefix. *)
Lemma cut_skip (p s : string) :
  (forall p1 p2, p = p1 +:+ p2 -> p2 <> EmptyString -> ~ marker_pair (p2 +:+ s)) ->
  cut (p +:+ s) = p +:+ cut s.
Proof.
  induction p as [|a p IH]; intros Hp; [done|].
  rewrite append_cons.
  destruct (Re.match_at Bot.hunk_re (String a (p +:+ s))) as [res|] eqn:Hm.
  - exfalso. apply (Hp EmptyString (String a p)); [done..|].
    rewrite append_cons. by eapply match_at_inv.
  - rewrite (cut_nomatch _ _ Hm), IH; [done|].
    intros p1 p2 -> Hp2. by apply (Hp (String a p1) p2).
Qed.

Lemma cut_none (s : string) :
  (forall p u, s = p +:+ u -> ~ marker_pair u) -> cut s = s.
Proof.
  intros Hs. rewrite <- (append_nil_r s) at 1. rewrite cut_skip.
  - by rewrite append_nil_r.
  - intros p1 p2 -> _. rewrite append_nil_r. by apply (Hs p1).
Qed.

Lemma cut_empty (s : string) : cut s = EmptyString -> s = EmptyString.
Proof.
  destruct s as [|a s]; [done|].
  destruct (Re.match_at Bot.hunk_re (String a s)) as [[n g]|] eqn:Hm.
  - destruct (match_at_inv _ _ Hm) as (r & t & -> & Hr).
    by rewrite (cut_marker r t Hr).
  - by rewrite (cut_nomatch _ _ Hm).
Qed.

Lemma normalize_line_empty (l : string) :
  no_lf l = true -> Bot.normalize_line l = EmptyString -> l = EmptyString.
Proof.
  intros Hl. rewrite (normalize_line_cut _ Hl).
  destruct (PyStr.startswith l "@@"); [apply cut_empty|done].
Qed.

Lemma normalize_diff_empty (x : string) :
  Bot.normalize_diff x = EmptyString <-> x = EmptyString.
Proof.
  split; [|by intros ->].
  unfold Bot.normalize_diff. intros Hx.
  pose proof (split_lines_no_lf x) as Hls. pose proof (join_split x) as Hj.
  destruct (PyStr.split PyStr.LF x) as [|l [|l' ls]]; [done| |].
  - inversion_clear Hls as [|?? Hl _]. simpl in Hx.
    apply (normalize_line_empty _ Hl) in Hx. by subst.
  - rewrite fmap_cons, join_cons in Hx by done.
    by destruct (Bot.normalize_line l).
Qed.

Lemma falsy_normalize_diff (x : string) :
  PyStr.falsy (Bot.normalize_diff x) = PyStr.falsy x.
Proof.
  destruct (Bot.normalize_diff x) eqn:Hn.
  - apply (proj1 (normalize_diff_empty x)) in Hn. by subst.
  - destruct x; [|done]. by rewrite (proj2 (normalize_diff_empty EmptyString)) in Hn.
Qed.

End normalize_more.

(** C4, as the code has it. The normalizer works line by line. A line
    that starts with a marker pair, ["@@" r "@@" t] with no '@' in [r],
    becomes ["@@" r "@@"]; the hunk line of the specification is an
    instance. A line that does not begin with ["@@"] is returned
    unchanged, and so is a line in which no marker pair occurs at all. A
    line that begins with ["@@"] and has its first marker pair further to
    the right is cut after that pair. *)
Theorem normalize_diff_line_by_line :
  (forall ls : list string,
     ls <> [] -> Forall (fun l => Scan.no_lf l = true) ls ->
     Bot.normalize_diff (PyStr.join Bot.NL ls) =
       PyStr.join Bot.NL (Bot.normalize_line <$> ls)) /\
  (forall r t : string,
     Scan.no_at r = true -> Scan.no_lf t = true ->
     Bot.normalize_line ("@@" +:+ r +:+ "@@" +:+ t) = "@@" +:+ r +:+ "@@") /\
  Bot.normalize_line "@@ -1,2 +1,3 @@ func foo() {" = "@@ -1,2 +1,3 @@" /\
  (forall l : string,
     PyStr.startswith l "@@" = false -> Bot.normalize_line l = l) /\
  (forall l : string,
     Scan.no_lf l = true ->
     (forall p u, l = p +:+ u -> ~ Scan.marker_pair u) ->
     Bot.normalize_line l = l) /\
  (forall p r t : string,
     Scan.no_lf (p +:+ "@@" +:+ r +:+ "@@" +:+ t) = true ->
     Scan.no_at r = true ->
     PyStr.startswith (p +:+ "@@" +:+ r +:+ "@@" +:+ t) "@@" = true ->
     (forall p1 p2, p = p1 +:+ p2 -> p2 <> EmptyString ->
        ~ Scan.marker_pair (p2 +:+ "@@" +:+ r +:+ "@@" +:+ t)) ->
     Bot.normalize_line (p +:+ "@@" +:+ r +:+ "@@" +:+ t) =
       p +:+ "@@" +:+ r +:+ "@@").
Proof.
  split; [|split; [|split; [|split; [|split]]]].
  - intros ls Hne Hls. unfold Bot.normalize_diff. by rewrite split_join.
  - intros r t Hr Ht. unfold Bot.normalize_line.
    rewrite (sub1_marker r t Hr Ht).
    unfold PyStr.startswith. by rewrite (prefix_append "@@").
  - by vm_compute.
  - intros l Hl. unfold Bot.normalize_line. by rewrite Hl.
  - intros l Hl Hnone. rewrite (normalize_line_cut _ Hl), (cut_none _ Hnone).
    by destruct (PyStr.startswith l "@@").
  - intros p r t Hl Hr Hp Hfirst.
    rewrite (normalize_line_cut _ Hl), Hp, (cut_skip _ _ Hfirst).
    by rewrite (cut_marker r t Hr).
Qed.

(** C4 as stated fails on a line that begins with ["@@"] but not with a
    marker pair: such a line is one of the "other" lines, yet it comes
    back changed. The result is the line cut after its first marker
    pair, which here is neither the first nor the last ["@@"] that
    follows the opening one. *)
Lemma normalize_line_changes_other_line :
  Scan.no_lf "@@ a @ b @@ c @@ d @@ e" = true /\
  ~ Scan.marker_pair "@@ a @ b @@ c @@ d @@ e" /\
  Bot.normalize_line "@@ a @ b @@ c @@ d @@ e" = "@@ a @ b @@ c @@" /\
  Bot.normalize_line "@@ a @ b @@ c @@ d @@ e" <> "@@ a @ b @@ c @@ d @@ e".
Proof.
  split; [by vm_compute|]. split.
  - intros [res Hres]%marker_pair_match. by vm_compute in Hres.
  - split; [by vm_compute|]. by vm_compute.
Qed.

(** Every way of splitting a given string, one after the other. *)
Ltac each_split H :=
  repeat match type of H with
    | String _ _ = ?p +:+ _ =>
        destruct p as [|? p];
        [ rewrite append_nil_l in H
        | rewrite append_cons in H; injection H as <- H ]
    | EmptyString = ?p +:+ _ =>
        destruct p as [|? p];
        [ rewrite append_nil_l in H | by rewrite append_cons in H ]
    end.

Ltac no_marker_pair :=
  let res := fresh in let Hres := fresh in
  intros [res Hres]%marker_pair_match; by vm_compute in Hres.

(** The parts of C4 at concrete lines. *)
Lemma normalize_diff_line_by_line_witness :
  Bot.normalize_diff "+++ b/x
@@ -1 +1 @@ def f():
+y" = "+++ b/x
@@ -1 +1 @@
+y" /\
  Bot.normalize_line ("@@" +:+ " -3 +3 " +:+ "@@" +:+ " int main()") =
    "@@" +:+ " -3 +3 " +:+ "@@" /\
  Bot.normalize_line "+@@ x @@ y" = "+@@ x @@ y" /\
  Bot.normalize_line "@@ x" = "@@ x" /\
  Bot.normalize_line ("@" +:+ "@@" +:+ " x " +:+ "@@" +:+ " y") =
    "@" +:+ "@@" +:+ " x " +:+ "@@".
Proof.
  destruct normalize_diff_line_by_line as (H1 & H2 & _ & H4 & H5 & H6).
  split; [|split; [|split; [|split]]].
  - apply (H1 ["+++ b/x"; "@@ -1 +1 @@ def f():"; "+y"]); [done|].
    by repeat constructor.
  - by apply H2.
  - by apply H4.
  - apply H5; [done|]. intros p u H. each_split H; subst u; no_marker_pair.
  - apply H6; [done..|]. intros p1 p2 H Hp2.
    each_split H; subst p2; [no_marker_pair|done].
Defined.

(** * The pipeline, case by case *)

Section pipeline_facts.

Import Py Bot Trace.

Context {S : Type}.
Variables (repository_path : string) (client : DistilLabsLLM.t).
Variables (env : Env) (s : S).

Lemma invoke_eq (question context : string) :
  DistilLabsLLM.invoke client question context env s =
    (s, [Create (DistilLabsLLM.client client) (request_of client question context)],
     match env_create env (DistilLabsLLM.client client)
             (request_of client question context) with
     | Answered chat_response =>
         match choices chat_response with
         | c :: _ => Ok (content (message c))
         | [] => Raise (Exception "list index out of range")
         end
     | ServiceError text => Raise (Exception text)
     | ServiceInterrupted => Raise KeyboardInterrupt
     end).
Proof.
  unfold DistilLabsLLM.invoke, chat_completions_create, bind, emit, ask, ret,
    raise, request_of.
  destruct (env_create env _ _) as [[[|c cs]]|text|]; reflexivity.
Qed.

Lemma run_failed_exit (returncode : Z) (stdout stderr : string) :
  env_run env git_diff repository_path = Exited returncode stdout stderr ->
  returncode <> 0%Z ->
  run_git_diff_analysis repository_path client env s =
    (s, [Run git_diff repository_path;
         Print Stderr ("Error running git diff: " +:+ stderr)], Ok tt).
Proof.
  intros Hrun Hrc.
  unfold run_git_diff_analysis, try_except, subprocess_run, bind, emit, ask,
    ret, raise.
  rewrite Hrun. destruct (Z.eqb_spec returncode 0); [done|]. reflexivity.
Qed.

Lemma run_not_run (text : string) :
  env_run env git_diff repository_path = NotRun text ->
  run_git_diff_analysis repository_path client env s =
    (s, [Run git_diff repository_path; Print Stderr ("Error: " +:+ text)],
     Ok tt).
Proof.
  intros Hrun.
  unfold run_git_diff_analysis, try_except, subprocess_run, bind, emit, ask,
    ret, raise.
  rewrite Hrun. reflexivity.
Qed.

Lemma run_no_changes (stderr : string) :
  env_run env git_diff repository_path = Exited 0 EmptyString stderr ->
  run_git_diff_analysis repository_path client env s =
    (s, [Run git_diff repository_path; Print Stdout "No changes found"],
     Ok tt).
Proof.
  intros Hrun.
  unfold run_git_diff_analysis, try_except, subprocess_run, bind, emit, ask,
    ret, raise.
  rewrite Hrun. reflexivity.
Qed.

(** An interrupt from the keyboard is caught by neither clause. *)
Lemma run_interrupted :
  env_run env git_diff repository_path = Interrupted ->
  run_git_diff_analysis repository_path client env s =
    (s, [Run git_diff repository_path], Raise KeyboardInterrupt).
Proof.
  intros Hrun.
  unfold run_git_diff_analysis, try_except, subprocess_run, bind, emit, ask,
    ret, raise.
  rewrite Hrun. reflexivity.
Qed.

(** With a non-empty diff the pipeline prints its banner and calls the
    completion client with the normalized diff. *)
Lemma run_changes (stdout stderr : string) :
  env_run env git_diff repository_path = Exited 0 stdout stderr ->
  stdout <> EmptyString ->
  exists (tail : list effect) (r : result unit),
    run_git_diff_analysis repository_path client env s =
      (s,
       [Run git_diff repository_path;
        Print Stdout (NL +:+ PyStr.repeat "=" 60);
        Strftime "%Y-%m-%d %H:%M:%S";
        Print Stdout
          ("Changes detected at " +:+ env_strftime env "%Y-%m-%d %H:%M:%S");
        Print Stdout "";
        Print Stdout "Generating commit message suggestion";
        Print Stdout (PyStr.repeat "=" 60 +:+ NL);
        Print Stdout "";
        Create (DistilLabsLLM.client client)
          (request_of client DEFAULT_QUESTION (normalize_diff stdout))]
       ++ tail, r) /\
    requests tail = [] /\ runs tail = 0.
Proof.
  intros Hrun Hout.
  unfold run_git_diff_analysis, try_except, subprocess_run.
  unfold bind at 1 2 3 4. unfold emit at 1, ask at 1. rewrite Hrun.
  change (0 =? 0)%Z with true. cbv iota beta. unfold ret at 1 2.
  cbv iota beta. rewrite falsy_normalize_diff.
  destruct stdout as [|a out]; [done|]. cbn [PyStr.falsy]. cbv iota.
  cbv [bind print time_strftime emit ask ret]. rewrite invoke_eq.
  destruct (env_create env _ _) as [[[|c cs]]|text|];
    cbv beta iota zeta delta [app];
    eexists _, _; (split; [reflexivity|done]).
Qed.

Lemma run_cases :
  env_run env git_diff repository_path = Interrupted \/
  (exists text, env_run env git_diff repository_path = NotRun text) \/
  (exists returncode stdout stderr,
     env_run env git_diff repository_path = Exited returncode stdout stderr /\
     returncode <> 0%Z) \/
  (exists stderr,
     env_run env git_diff repository_path = Exited 0 EmptyString stderr) \/
  (exists stdout stderr,
     env_run env git_diff repository_path = Exited 0 stdout stderr /\
     stdout <> EmptyString).
Proof.
  destruct (env_run env git_diff repository_path) as [rc out err|text|];
    [|by eauto|by left].
  right. destruct (Z.eq_dec rc 0%Z) as [->|]; [|by eauto 10].
  destruct out; [by eauto 10|]. do 3 right. by eauto.
Qed.

(** The pipeline never touches the object it is run for. *)
Lemma run_state :
  state_of (run_git_diff_analysis repository_path client env s) = s.
Proof.
  destruct run_cases as [Hi|[[t H]|[(rc & out & err & H & Hrc)|[[err H]|(out & err & H & Hout)]]]].
  - by rewrite (run_interrupted Hi).
  - by rewrite (run_not_run _ H).
  - by rewrite (run_failed_exit _ _ _ H Hrc).
  - by rewrite (run_no_changes _ H).
  - destruct (run_changes _ _ H Hout) as (tail & r & -> & _). done.
Qed.


(** An exception leaves the pipeline in two ways only: as the
    [KeyboardInterrupt] that interrupted the subprocess, or after the
    diff was extracted and found non-empty, raised by the completion
    call. *)
Lemma run_raises (e : exn) :
  result_of (run_git_diff_analysis repository_path client env s) = Raise e ->
  (e = KeyboardInterrupt /\
   env_run env git_diff repository_path = Interrupted) \/
  exists stdout stderr,
    env_run env git_diff repository_path = Exited 0 stdout stderr /\
    stdout <> EmptyString.
Proof.
  destruct run_cases as [Hi|[[t H]|[(rc & out & err & H & Hrc)|[[err H]|(out & err & H & Hout)]]]].
  - rewrite (run_interrupted Hi). intros [= <-]. by left.
  - by rewrite (run_not_run _ H).
  - by rewrite (run_failed_exit _ _ _ H Hrc).
  - by rewrite (run_no_changes _ H).
  - by eauto.
Qed.

(** How a run of the pipeline can end: normally, by an interrupt from
    the keyboard, or by an [Exception] of the completion call. It never
    ends the process itself with [sys.exit]. *)
Lemma run_result :
  result_of (run_git_diff_analysis repository_path client env s) = Ok tt \/
  result_of (run_git_diff_analysis repository_path client env s) =
    Raise KeyboardInterrupt \/
  exists text,
    result_of (run_git_diff_analysis repository_path client env s) =
      Raise (Exception text).
Proof.
  destruct run_cases as [Hi|[[t H]|[(rc & out & err & H & Hrc)|[[err H]|(out & err & H & Hout)]]]].
  - rewrite (run_interrupted Hi). by eauto.
  - rewrite (run_not_run _ H). by eauto.
  - rewrite (run_failed_exit _ _ _ H Hrc). by eauto.
  - rewrite (run_no_changes _ H). by eauto.
  - assert (exists trace r,
              run_git_diff_analysis repository_path client env s =
                (s, trace, r) /\
              (r = Ok tt \/ r = Raise KeyboardInterrupt \/
               exists text, r = Raise (Exception text)))
      as (trace & r & -> & Hr).
    { unfold run_git_diff_analysis, try_except, subprocess_run.
      unfold bind at 1 2 3 4. unfold emit at 1, ask at 1. rewrite H.
      change (0 =? 0)%Z with true. cbv iota beta. unfold ret at 1 2.
      cbv iota beta. rewrite falsy_normalize_diff.
      destruct out as [|a out]; [done|]. cbn [PyStr.falsy]. cbv iota.
      cbv [bind print time_strftime emit ask ret]. rewrite invoke_eq.
      destruct (env_create env _ _) as [[[|c cs]]|text|]; simpl;
        eexists _, _; (split; [reflexivity|]); by eauto. }
    unfold result_of. simpl. destruct Hr as [->|[->|[text ->]]]; by eauto.
Qed.

End pipeline_facts.

(** * The handler, case by case *)

Section handler_facts.

Import Py Bot Trace.
Import RepositoryChangeHandler.

Lemma on_any_event_eq (event : FileSystemEvent) (env : Env) (self : t) :
  on_any_event event env self =
    if PyStr.contains ".git" (src_path event) || is_directory event
    then (self, [], Ok tt)
    else if Qle_bool (debounce_seconds self)
              (env_time env - last_trigger_time self)
    then
      match run_git_diff_analysis (repository_path self) (client self) env
              (set_last_trigger_time self (env_time env)) with
      | (self', trace, r) => (self', Time :: trace, r)
      end
    else (self, [Time], Ok tt).
Proof.
  unfold on_any_event. unfold bind at 1. unfold get at 1.
  destruct (PyStr.contains ".git" (src_path event) || is_directory event);
    [reflexivity|].
  unfold bind at 1. unfold time_time, bind at 1 2, emit, ask, ret. cbv iota beta.
  destruct (Qle_bool _ _); [|reflexivity].
  unfold bind, put.
  by destruct (run_git_diff_analysis _ _ _ _) as [[s' tr] r].
Qed.

End handler_facts.

Section claims_pipeline.

Import Py Bot Trace.




(** C7. Every request [invoke] sends carries temperature 0 (it sends
    exactly one, for the configured model and with the messages of
    [get_prompt]), and when the endpoint answers with at least one
    choice, [invoke] returns the content of the message of the first. *)
Theorem invoke_temperature_zero {S : Type} (self : DistilLabsLLM.t)
    (question context : string) (env : Env) (s : S) :
  Forall (fun request => temperature request = 0%Z)
    (requests (trace_of (DistilLabsLLM.invoke self question context env s))) /\
  trace_of (DistilLabsLLM.invoke self question context env s) =
    [Create (DistilLabsLLM.client self) (request_of self question context)] /\
  (forall chat_response c cs,
     env_create env (DistilLabsLLM.client self)
       (request_of self question context) = Answered chat_response ->
     choices chat_response = c :: cs ->
     DistilLabsLLM.invoke self question context env s =
       (s, [Create (DistilLabsLLM.client self)
              (request_of self question context)],
        Ok (content (message c)))).
Proof.
  rewrite invoke_eq. split; [by repeat constructor|]. split; [done|].
  intros chat_response c cs -> Hc. by rewrite Hc.
Qed.

Lemma invoke_temperature_zero_witness :
  DistilLabsLLM.invoke Sample.llm DEFAULT_QUESTION "+x"
    (Sample.world 1762240000 (Exited 0 "+x" EmptyString)) tt =
  (tt, [Create (DistilLabsLLM.client Sample.llm)
          (request_of Sample.llm DEFAULT_QUESTION "+x")],
   Ok "Fix typo in README").
Proof.
  apply (proj2 (proj2 (invoke_temperature_zero Sample.llm DEFAULT_QUESTION
                         "+x" (Sample.world 1762240000 (Exited 0 "+x" "")) tt))
           Sample.answer {| message := {| content := "Fix typo in README" |} |}
           [ {| message := {| content := "Update README" |} |} ]);
    reflexivity.
Defined.

End claims_pipeline.

Section filter_facts.

Import Py Bot Trace.

Lemma contains_unfold (needle hay : string) :
  PyStr.contains needle hay =
    if String.prefix needle hay then true
    else match hay with
         | EmptyString => false
         | String _ hay' => PyStr.contains needle hay'
         end.
Proof. by destruct hay. Qed.

(** [in] on strings is the substring test. *)
Lemma contains_spec (needle hay : string) :
  PyStr.contains needle hay = true <-> Spec.occurs_in needle hay.
Proof.
  split.
  - induction hay as [|a hay IH]; rewrite contains_unfold;
      destruct (String.prefix needle _) eqn:Hp.
    + intros _. apply prefix_split in Hp as [t ->]. by exists EmptyString, t.
    + done.
    + intros _. apply prefix_split in Hp as [t ->]. by exists EmptyString, t.
    + intros (pre & post & ->)%IH. by exists (String a pre), post.
  - intros (pre & post & ->). induction pre as [|a pre IH].
    + by rewrite contains_unfold, append_nil_l, prefix_append.
    + rewrite contains_unfold, append_cons.
      by destruct (String.prefix needle _).
Qed.

Lemma filter_spec (event : FileSystemEvent) :
  PyStr.contains ".git" (src_path event) || is_directory event = false <->
  Spec.qualifying event.
Proof.
  unfold Spec.qualifying. rewrite <- contains_spec, orb_false_iff.
  destruct (PyStr.contains ".git" (src_path event)); intuition congruence.
Qed.

Lemma run_runs {S : Type} (repository_path : string)
    (client : DistilLabsLLM.t) (env : Env) (s : S) :
  runs (trace_of (run_git_diff_analysis repository_path client env s)) = 1.
Proof.
  destruct (run_cases repository_path env)
    as [Hi|[[t H]|[(rc & out & err & H & Hrc)|[[err H]|(out & err & H & Hout)]]]].
  - by rewrite (run_interrupted _ _ _ _ Hi).
  - by rewrite (run_not_run _ _ _ _ _ H).
  - by rewrite (run_failed_exit _ _ _ _ _ _ _ H Hrc).
  - by rewrite (run_no_changes _ _ _ _ _ H).
  - destruct (run_changes _ client _ s _ _ H Hout) as (tail & r & -> & _ & Ht).
    unfold trace_of. simpl. exact (f_equal Datatypes.S Ht).
Qed.

(** A call of the handler whose pipeline run returns lets the
    dispatching thread go on with the rest of its queue. *)
Lemma observer_run_step (event : FileSystemEvent) (env : Env)
    (self self' : RepositoryChangeHandler.t) (trace : list effect)
    (queue : list (Env * FileSystemEvent)) :
  RepositoryChangeHandler.on_any_event event env self = (self', trace, Ok tt) ->
  observer_run ((env, event) :: queue) self =
    match observer_run queue self' with
    | (self'', trace', r) => (self'', trace ++ trace', r)
    end.
Proof. intros H. simpl. by rewrite H. Qed.

(** When the pipeline run of a call returns without a request, so does
    the call, with the handler untouched or its timestamp moved to the
    clock reading. *)
Lemma on_any_event_skipped (event : FileSystemEvent) (env : Env)
    (self : RepositoryChangeHandler.t) (trace0 : list effect) :
  (forall s : RepositoryChangeHandler.t,
     run_git_diff_analysis (RepositoryChangeHandler.repository_path self)
       (RepositoryChangeHandler.client self) env s = (s, trace0, Ok tt)) ->
  requests trace0 = [] ->
  exists self' trace,
    RepositoryChangeHandler.on_any_event event env self = (self', trace, Ok tt) /\
    (self' = self \/
     self' = RepositoryChangeHandler.set_last_trigger_time self (env_time env)) /\
    requests trace = [].
Proof.
  intros Hrun Hreq. rewrite on_any_event_eq.
  destruct (_ || _); [by eauto 10|].
  destruct (Qle_bool _ _); [|by eauto 10].
  rewrite Hrun. by eauto 10.
Qed.

End filter_facts.

Section claims_errors.

Import Py Bot Trace.



(** C10, as the code has it. Every failure of the diff extraction that
    is an [Exception] is caught: when the subprocess could not be run at
    all, the exception is printed to standard error and the run returns;
    when it exited with a non-zero status, its error stream is printed
    and the run returns. So the call of the handler returns on every
    such failure, and the dispatching thread goes on. A
    [KeyboardInterrupt] that arrives while the subprocess runs is caught
    by neither clause and leaves the run. An exception leaves the run in
    no other way during the extraction: any other one was raised after
    it, when it had produced a non-empty diff. *)
Theorem diff_extraction_failures_are_caught (self : RepositoryChangeHandler.t)
    (event : FileSystemEvent) (env : Env)
    (queue : list (Env * FileSystemEvent)) :
  (forall (S : Type) (s : S) (text : string),
     env_run env git_diff (RepositoryChangeHandler.repository_path self) =
       NotRun text ->
     run_git_diff_analysis (RepositoryChangeHandler.repository_path self)
       (RepositoryChangeHandler.client self) env s =
       (s, [Run git_diff (RepositoryChangeHandler.repository_path self);
            Print Stderr ("Error: " +:+ text)], Ok tt)) /\
  (forall (S : Type) (s : S) (returncode : Z) (stdout stderr : string),
     env_run env git_diff (RepositoryChangeHandler.repository_path self) =
       Exited returncode stdout stderr ->
     returncode <> 0%Z ->
     run_git_diff_analysis (RepositoryChangeHandler.repository_path self)
       (RepositoryChangeHandler.client self) env s =
       (s, [Run git_diff (RepositoryChangeHandler.repository_path self);
            Print Stderr ("Error running git diff: " +:+ stderr)], Ok tt)) /\
  (forall (S : Type) (s : S),
     env_run env git_diff (RepositoryChangeHandler.repository_path self) =
       Interrupted ->
     run_git_diff_analysis (RepositoryChangeHandler.repository_path self)
       (RepositoryChangeHandler.client self) env s =
       (s, [Run git_diff (RepositoryChangeHandler.repository_path self)],
        Raise KeyboardInterrupt)) /\
  (forall (S : Type) (s : S) (e : exn),
     result_of
       (run_git_diff_analysis (RepositoryChangeHandler.repository_path self)
          (RepositoryChangeHandler.client self) env s) = Raise e ->
     (e = KeyboardInterrupt /\
      env_run env git_diff (RepositoryChangeHandler.repository_path self) =
        Interrupted) \/
     exists stdout stderr,
       env_run env git_diff (RepositoryChangeHandler.repository_path self) =
         Exited 0 stdout stderr /\
       stdout <> EmptyString) /\
  ((exists text,
      env_run env git_diff (RepositoryChangeHandler.repository_path self) =
        NotRun text) \/
   (exists returncode stdout stderr,
      env_run env git_diff (RepositoryChangeHandler.repository_path self) =
        Exited returncode stdout stderr /\ returncode <> 0%Z) ->
   exists self' trace,
     RepositoryChangeHandler.on_any_event event env self =
       (self', trace, Ok tt) /\
     observer_run ((env, event) :: queue) self =
       match observer_run queue self' with
       | (self'', trace', r) => (self'', trace ++ trace', r)
       end).
Proof.
  split; [|split; [|split; [|split]]].
  - intros S s text H. by apply run_not_run.
  - intros S s rc out err H Hrc. by eapply run_failed_exit.
  - intros S s H. by apply run_interrupted.
  - intros S s e H. by eapply run_raises.
  - intros [[text H]|(rc & out & err & H & Hrc)].
    + destruct (on_any_event_skipped event env self
                  [Run git_diff (RepositoryChangeHandler.repository_path self);
                   Print Stderr ("Error: " +:+ text)])
        as (self' & trace & Hev & _); [|done|].
      { intros s. by apply run_not_run. }
      exists self', trace. split; [done|]. by apply observer_run_step.
    + destruct (on_any_event_skipped event env self
                  [Run git_diff (RepositoryChangeHandler.repository_path self);
                   Print Stderr ("Error running git diff: " +:+ err)])
        as (self' & trace & Hev & _); [|done|].
      { intros s. by eapply run_failed_exit. }
      exists self', trace. split; [done|]. by apply observer_run_step.
Qed.

Lemma diff_extraction_failures_are_caught_witness :
  run_git_diff_analysis "/home/dev/project" Sample.llm
    (Sample.world 1762240000
       (NotRun "[Errno 2] No such file or directory: 'git'")) tt =
  (tt, [Run git_diff "/home/dev/project";
        Print Stderr "Error: [Errno 2] No such file or directory: 'git'"],
   Ok tt).
Proof.
  apply (proj1 (diff_extraction_failures_are_caught Sample.handler
                  (Sample.saved "/home/dev/project/README.md")
                  (Sample.world 1762240000
                     (NotRun "[Errno 2] No such file or directory: 'git'"))
                  []) unit tt "[Errno 2] No such file or directory: 'git'"
               eq_refl).
Defined.

(** C10 as stated fails: an exception raised while the diff subprocess
    runs does reach the caller when it is a [KeyboardInterrupt]. The
    run stops right after starting the subprocess, prints nothing, and
    the exception leaves both [run_git_diff_analysis] and the main
    block, which runs the pipeline itself when started without
    [--watch]. *)
Lemma interrupt_leaves_diff_extraction :
  run_git_diff_analysis "/home/dev/project" Sample.llm
    (Sample.world 1762240000 Interrupted) tt =
    (tt, [Run git_diff "/home/dev/project"], Raise KeyboardInterrupt) /\
  result_of
    (main {| Args.api_key := "EMPTY"; Args.model := "commit-bot-llama-1.0-1B";
             Args.port := 11434; Args.repository := "/home/dev/project";
             Args.watch := false |}
       (Sample.world 1762240000 Interrupted) None) = Raise KeyboardInterrupt.
Proof. split; by vm_compute. Qed.

(** C5. The handler reads the clock for its debounce check exactly when
    the event is not a directory event and [".git"] does not occur
    anywhere in its path; every other event is dropped at once, with no
    effect and the handler unchanged, and the pipeline runs only for
    events that pass this filter. *)
Theorem on_any_event_filter (event : FileSystemEvent) (env : Env)
    (self : RepositoryChangeHandler.t) :
  (read_clock (trace_of (RepositoryChangeHandler.on_any_event event env self))
     = true <-> Spec.qualifying event) /\
  (~ Spec.qualifying event ->
   RepositoryChangeHandler.on_any_event event env self = (self, [], Ok tt)) /\
  (runs (trace_of (RepositoryChangeHandler.on_any_event event env self)) <> 0 ->
   Spec.qualifying event).
Proof.
  rewrite on_any_event_eq. rewrite <- filter_spec.
  destruct (_ || _).
  - repeat split; done.
  - repeat split; try done. intros _.
    destruct (Qle_bool _ _); [|done].
    by destruct (run_git_diff_analysis _ _ _ _) as [[s' tr] r].
Qed.

(** C5 at a concrete event: a saved file below [.github] is dropped,
    although it is no directory and the gate of the fresh handler is
    open. *)
Lemma on_any_event_filter_witness :
  RepositoryChangeHandler.on_any_event
    (Sample.saved "/home/dev/project/.github/workflows/ci.yml")
    (Sample.world 1762240000 (Exited 0 "+x" EmptyString)) Sample.handler =
  (Sample.handler, [], Ok tt).
Proof.
  apply (proj1 (proj2 (on_any_event_filter _ _ _))).
  intros [_ H]. apply H.
  by exists "/home/dev/project/", "hub/workflows/ci.yml".
Defined.

End claims_errors.

(** * The debounce gate *)

Section gate_facts.

Import Py Bot Trace.
Import RepositoryChangeHandler.

Lemma on_any_event_open (event : FileSystemEvent) (env : Env) (self : t) :
  Spec.qualifying event -> Spec.gate_open self (env_time env) ->
  exists trace r,
    on_any_event event env self =
      (set_last_trigger_time self (env_time env), Time :: trace, r) /\
    runs trace = 1.
Proof.
  intros Hq%filter_spec Hopen%Qle_bool_iff. rewrite on_any_event_eq, Hq, Hopen.
  pose proof (run_state (repository_path self) (client self) env
                (set_last_trigger_time self (env_time env))) as Hs.
  pose proof (run_runs (repository_path self) (client self) env
                (set_last_trigger_time self (env_time env))) as Hr.
  destruct (run_git_diff_analysis _ _ _ _) as [[s' tr] r].
  unfold state_of, trace_of in *. simpl in *. subst s'. by eauto.
Qed.

Lemma on_any_event_closed (event : FileSystemEvent) (env : Env) (self : t) :
  Spec.qualifying event -> ~ Spec.gate_open self (env_time env) ->
  on_any_event event env self = (self, [Time], Ok tt).
Proof.
  intros Hq%filter_spec Hclosed. rewrite on_any_event_eq, Hq.
  destruct (Qle_bool _ _) eqn:Hb; [|done].
  by apply Qle_bool_iff in Hb.
Qed.

Lemma triggers_cons (outcome : list effect * result unit)
    (outcomes : list (list effect * result unit)) :
  triggers (outcome :: outcomes) =
    (if triggered outcome then 1 else 0) + triggers outcomes.
Proof.
  unfold triggers. rewrite filter_cons.
  destruct (triggered outcome); by case_decide.
Qed.

(** After a trigger at [t1], events less than one interval later are all
    denied and leave the handler as it is. *)
Lemma handle_events_closed (queue : list (Env * FileSystemEvent)) (self : t) :
  Forall (fun p => Spec.qualifying (snd p)) queue ->
  Forall (fun p => ~ Spec.gate_open self (Spec.arrival p)) queue ->
  handle_events queue self = (self, (fun _ => ([Time], Ok tt)) <$> queue) /\
  triggers (snd (handle_events queue self)) = 0.
Proof.
  induction queue as [|[env event] queue IH]; [done|].
  intros Hq Hc. inversion_clear Hq as [|?? Hq1 Hq2].
  inversion_clear Hc as [|?? Hc1 Hc2]. simpl in Hq1.
  unfold Spec.arrival in Hc1. simpl in Hc1.
  destruct (IH Hq2 Hc2) as [IH1 IH2]. simpl.
  rewrite (on_any_event_closed _ _ _ Hq1 Hc1), IH1. split; [done|].
  rewrite IH1 in IH2. simpl in *. by rewrite triggers_cons, IH2.
Qed.

Lemma gate_closed_after (self : t) (t1 now : Q) :
  (now - t1 < debounce_seconds self)%Q ->
  ~ Spec.gate_open (set_last_trigger_time self t1) now.
Proof. unfold Spec.gate_open. simpl. intros H1 H2. lra. Qed.

Lemma handle_events_burst (queue : list (Env * FileSystemEvent))
    (env1 : Env) (event1 : FileSystemEvent) (self : t) :
  Spec.qualifying event1 ->
  Forall (fun p => Spec.qualifying (snd p)) queue ->
  Spec.gate_open self (env_time env1) ->
  Forall (fun p => (Spec.arrival p - env_time env1 < debounce_seconds self)%Q)
    queue ->
  triggers (snd (handle_events ((env1, event1) :: queue) self)) = 1.
Proof.
  intros Hq1 Hq Hopen Hwin.
  destruct (on_any_event_open _ _ _ Hq1 Hopen) as (trace & r & Hev & Hruns).
  simpl. rewrite Hev.
  destruct (handle_events_closed queue
              (set_last_trigger_time self (env_time env1)) Hq) as [Hrest Hzero].
  { eapply Forall_impl; [exact Hwin|]. intros p Hp. by apply gate_closed_after. }
  rewrite Hrest in *. simpl in *. rewrite triggers_cons, Hzero.
  unfold triggered. simpl. by rewrite Hruns.
Qed.

Lemma handle_events_at_most_one (queue : list (Env * FileSystemEvent))
    (self : t) (a : Q) :
  Forall (fun p => Spec.qualifying (snd p)) queue ->
  Forall (fun p => (a <= Spec.arrival p)%Q /\
                   (Spec.arrival p < a + debounce_seconds self)%Q) queue ->
  triggers (snd (handle_events queue self)) <= 1.
Proof.
  revert self. induction queue as [|[env event] queue IH]; intros self Hq Hwin.
  - simpl. unfold triggers. simpl. lia.
  - inversion Hq as [|?? Hq1 Hq2]. inversion Hwin as [|?? [Hw1 Hw1'] Hw2].
    subst. simpl in Hq1. unfold Spec.arrival in Hw1, Hw1'. simpl in Hw1, Hw1'.
    destruct (Qlt_le_dec (env_time env - last_trigger_time self)
                (debounce_seconds self)) as [Hclosed|Hopen].
    + simpl. rewrite (on_any_event_closed _ _ _ Hq1).
      2:{ unfold Spec.gate_open. intros H. lra. }
      specialize (IH self Hq2 Hw2).
      destruct (handle_events queue self) as [s' outs]. simpl in *.
      by rewrite triggers_cons.
    + rewrite (handle_events_burst queue env event self Hq1 Hq2 Hopen); [lia|].
      eapply Forall_impl; [exact Hw2|]. intros p [Hp1 Hp2]. simpl. lra.
Qed.

Lemma handle_events_two (env1 env2 : Env) (event1 event2 : FileSystemEvent)
    (self : t) :
  Spec.qualifying event1 -> Spec.qualifying event2 ->
  Spec.gate_open self (env_time env1) ->
  (debounce_seconds self <= env_time env2 - env_time env1)%Q ->
  triggered <$> snd (handle_events [(env1, event1); (env2, event2)] self) =
    [true; true].
Proof.
  intros Hq1 Hq2 Hopen Hsep.
  destruct (on_any_event_open _ _ _ Hq1 Hopen) as (tr1 & r1 & Hev1 & Hr1).
  destruct (on_any_event_open event2 env2
              (set_last_trigger_time self (env_time env1)) Hq2)
    as (tr2 & r2 & Hev2 & Hr2); [exact Hsep|].
  simpl. rewrite Hev1, Hev2. simpl. unfold triggered. simpl. by rewrite Hr1, Hr2.
Qed.

End gate_facts.

Section claims_gate.

Import Py Bot Trace.
Import RepositoryChangeHandler.

(** C2, as the code has it. A qualifying event handled at clock reading
    [now] triggers the pipeline exactly when
    [now - last_trigger_time >= debounce_seconds] (10 seconds by
    default, and 0 is the timestamp of a fresh handler); a trigger sets
    the timestamp to [now], a denial leaves the handler unchanged. Of
    the qualifying events handled within one interval at most one
    triggers, and exactly one does when the first of them finds the
    gate open. Two qualifying events at least one interval apart both
    trigger when the first of them finds the gate open. *)
Theorem debounce_gate (self : t) :
  default_debounce_seconds = 10%Q /\
  (forall repository_path client interval,
     last_trigger_time (init repository_path client interval) = 0%Q /\
     debounce_seconds (init repository_path client interval) = interval) /\
  (forall env event,
     Spec.qualifying event ->
     (triggered (trace_of (on_any_event event env self),
                 result_of (on_any_event event env self)) = true <->
      Spec.gate_open self (env_time env)) /\
     (Spec.gate_open self (env_time env) ->
      state_of (on_any_event event env self) =
        set_last_trigger_time self (env_time env)) /\
     (~ Spec.gate_open self (env_time env) ->
      state_of (on_any_event event env self) = self)) /\
  (forall queue a,
     Forall (fun p => Spec.qualifying (snd p)) queue ->
     Forall (fun p => (a <= Spec.arrival p)%Q /\
                      (Spec.arrival p < a + debounce_seconds self)%Q) queue ->
     triggers (snd (handle_events queue self)) <= 1) /\
  (forall env1 event1 queue,
     Spec.qualifying event1 ->
     Forall (fun p => Spec.qualifying (snd p)) queue ->
     Spec.gate_open self (env_time env1) ->
     Forall (fun p => (Spec.arrival p - env_time env1 < debounce_seconds self)%Q)
       queue ->
     triggers (snd (handle_events ((env1, event1) :: queue) self)) = 1) /\
  (forall env1 event1 env2 event2,
     Spec.qualifying event1 -> Spec.qualifying event2 ->
     Spec.gate_open self (env_time env1) ->
     (debounce_seconds self <= env_time env2 - env_time env1)%Q ->
     triggered <$> snd (handle_events [(env1, event1); (env2, event2)] self) =
       [true; true]).
Proof.
  split; [done|]. split; [done|]. split; [|split; [|split]].
  - intros env event Hq. split; [|split].
    + destruct (Qlt_le_dec (env_time env - last_trigger_time self)
                  (debounce_seconds self)) as [Hclosed|Hopen].
      * rewrite (on_any_event_closed _ _ _ Hq).
        2:{ unfold Spec.gate_open. intros H. lra. }
        split; [done|]. unfold Spec.gate_open. intros H. lra.
      * destruct (on_any_event_open _ _ _ Hq Hopen) as (tr & r & -> & Hr).
        split; [done|]. intros _. unfold triggered, trace_of. simpl.
        by rewrite Hr.
    + intros Hopen.
      by destruct (on_any_event_open _ _ _ Hq Hopen) as (tr & r & -> & Hr).
    + intros Hclosed. by rewrite (on_any_event_closed _ _ _ Hq Hclosed).
  - intros queue a. by apply handle_events_at_most_one.
  - intros env1 event1 queue. by apply handle_events_burst.
  - intros env1 event1 env2 event2. by apply handle_events_two.
Qed.

End claims_gate.

Section gate_runs.

Import Py Bot Trace.
Import RepositoryChangeHandler.

(** Deciding that a concrete event passes the filter. *)
Ltac qualifies := apply filter_spec; by vm_compute.

(** C2 at concrete events on a fresh handler with the default interval:
    three saves within five seconds trigger once, two saves ten seconds
    apart trigger twice. *)
Lemma debounce_gate_witness :
  triggers
    (snd (handle_events
            [(Sample.world 1762240000 (Exited 0 "+x" EmptyString),
              Sample.saved "/home/dev/project/README.md");
             (Sample.world 1762240003 (Exited 0 "+x" EmptyString),
              Sample.saved "/home/dev/project/README.md");
             (Sample.world 1762240005 (Exited 0 "+x" EmptyString),
              Sample.saved "/home/dev/project/bot.py")]
            Sample.handler)) = 1 /\
  triggered <$>
    snd (handle_events
           [(Sample.world 1762240000 (Exited 0 "+x" EmptyString),
             Sample.saved "/home/dev/project/README.md");
            (Sample.world 1762240010 (Exited 0 "+x" EmptyString),
             Sample.saved "/home/dev/project/README.md")]
           Sample.handler) = [true; true].
Proof.
  destruct (debounce_gate Sample.handler) as (_ & _ & _ & _ & Hburst & Htwo).
  split.
  - apply Hburst.
    + qualifies.
    + repeat constructor; qualifies.
    + by vm_compute.
    + repeat constructor; by vm_compute.
  - apply Htwo; [qualifies|qualifies|by vm_compute|by vm_compute].
Defined.

(** C2 as stated fails for events that follow a trigger. A save at
    second 1762240000 triggers and sets the timestamp. The two saves
    that follow at seconds 3 and 5 arrive within one interval of each
    other, and neither triggers. Of the saves at seconds 5 and 15, which
    are a full interval apart, only the second triggers. *)
Lemma burst_after_trigger_is_dropped :
  state_of
    (on_any_event (Sample.saved "/home/dev/project/README.md")
       (Sample.world 1762240000 (Exited 0 "+x" EmptyString)) Sample.handler) =
    set_last_trigger_time Sample.handler 1762240000 /\
  Spec.qualifying (Sample.saved "/home/dev/project/README.md") /\
  (1762240005 - 1762240003 < debounce_seconds Sample.handler)%Q /\
  triggers
    (snd (handle_events
            [(Sample.world 1762240003 (Exited 0 "+x" EmptyString),
              Sample.saved "/home/dev/project/README.md");
             (Sample.world 1762240005 (Exited 0 "+x" EmptyString),
              Sample.saved "/home/dev/project/README.md")]
            (set_last_trigger_time Sample.handler 1762240000))) = 0 /\
  (debounce_seconds Sample.handler <= 1762240015 - 1762240005)%Q /\
  triggered <$>
    snd (handle_events
           [(Sample.world 1762240005 (Exited 0 "+x" EmptyString),
             Sample.saved "/home/dev/project/README.md");
            (Sample.world 1762240015 (Exited 0 "+x" EmptyString),
             Sample.saved "/home/dev/project/README.md")]
           (set_last_trigger_time Sample.handler 1762240000)) = [false; true].
Proof.
  split; [by vm_compute|]. split; [qualifies|].
  split; [by vm_compute|]. split; [by vm_compute|].
  split; by vm_compute.
Qed.

End gate_runs.

Section main_facts.

Import Py Bot Trace.

Lemma wait_for_interrupt_eq {S : Type} (n : nat) (env : Env) (s : S) :
  wait_for_interrupt n env s =
    (s, replicate n (Sleep 1), Raise KeyboardInterrupt).
Proof.
  induction n as [|n IH]; [done|]. simpl.
  unfold bind, time_sleep, emit. by rewrite IH.
Qed.

(** Started without [--watch] on an existing path, the main block
    prints its hint and then runs the pipeline itself. *)
Lemma main_one_shot_eq (args : Args.t) (env : Env)
    (event_handler : option RepositoryChangeHandler.t) :
  env_exists env (env_abspath env (env_expanduser env (Args.repository args)))
    = true ->
  Args.watch args = false ->
  main args env event_handler =
    match
      run_git_diff_analysis
        (env_abspath env (env_expanduser env (Args.repository args)))
        {| DistilLabsLLM.model_name := Args.model args;
           DistilLabsLLM.client :=
             {| base_url :=
                  "http://127.0.0.1:" +:+ str_of_int (Args.port args) +:+
                  "/v1";
                api_key := Args.api_key args |} |}
        env event_handler
    with
    | (event_handler', trace, r) =>
        (event_handler',
         Exists (env_abspath env (env_expanduser env (Args.repository args)))
           :: NewOpenAI
                {| base_url :=
                     "http://127.0.0.1:" +:+ str_of_int (Args.port args) +:+
                     "/v1";
                   api_key := Args.api_key args |}
           :: Print Stdout
                "Try --watch to watch for file changes and run continuously"
           :: trace,
         r)
    end.
Proof.
  intros Hex Hw. unfold main.
  unfold bind at 1. unfold ask at 1. cbv beta iota zeta.
  unfold bind at 1. unfold os_path_exists at 1.
  unfold bind at 1 2, emit at 1, ask at 1, ret at 1. cbv beta iota.
  rewrite Hex. cbv [negb]. cbv beta iota.
  unfold bind at 1. unfold ret at 1. cbv beta iota.
  unfold bind at 1. unfold DistilLabsLLM.init.
  unfold bind at 1, emit at 1, ret at 1. cbv beta iota.
  rewrite Hw. unfold bind at 1. unfold print at 1, emit at 1. cbv beta iota.
  by destruct (run_git_diff_analysis _ _ _ _) as [[s' tr] r].
Qed.

End main_facts.

Section claims_main.

Import Py Bot Trace.

(** C9. When the path given as [--repository], made absolute, does not
    exist, the process prints an error to standard error and exits with
    status 1; the test of the path is the only thing it did before: no
    completion client and no observer was constructed and no pipeline
    run. When the path exists, the validation does not end the process:
    the client is constructed next, and however the process ends later
    it is not by [sys.exit]; with [--watch] it ends normally, with
    status 0. *)
Theorem main_requires_repository (args : Args.t) (env : Env)
    (event_handler : option RepositoryChangeHandler.t) :
  (env_exists env (env_abspath env (env_expanduser env (Args.repository args)))
     = false ->
   main args env event_handler =
     (event_handler,
      [Exists (env_abspath env (env_expanduser env (Args.repository args)));
       Print Stderr
         ("Error: Repository path does not exist: " +:+
          env_abspath env (env_expanduser env (Args.repository args)))],
      Raise (SystemExit 1)) /\
   exit_status (result_of (main args env event_handler)) = 1%Z) /\
  (env_exists env (env_abspath env (env_expanduser env (Args.repository args)))
     = true ->
   exists event_handler' client trace r,
     main args env event_handler =
       (event_handler',
        Exists (env_abspath env (env_expanduser env (Args.repository args)))
          :: NewOpenAI client :: trace,
        r) /\
     (forall code, r <> Raise (SystemExit code)) /\
     (Args.watch args = true -> r = Ok tt /\ exit_status r = 0%Z)).
Proof.
  split; intros Hex.
  - assert (main args env event_handler =
     (event_handler,
      [Exists (env_abspath env (env_expanduser env (Args.repository args)));
       Print Stderr
         ("Error: Repository path does not exist: " +:+
          env_abspath env (env_expanduser env (Args.repository args)))],
      Raise (SystemExit 1))) as H; [|by rewrite H].
    cbv [main bind os_path_exists ask emit ret print raise].
    by rewrite Hex.
  - destruct (Args.watch args) eqn:Hw.
    + cbv [main bind os_path_exists ask emit ret print raise
             DistilLabsLLM.init try_except put].
      rewrite Hex, Hw. cbv [negb]. cbv beta iota.
      rewrite wait_for_interrupt_eq. cbv beta iota.
      eexists _, _, _, _. split; [reflexivity|]. by split.
    + rewrite (main_one_shot_eq _ _ _ Hex Hw).
      pose proof (run_result
                    (env_abspath env (env_expanduser env (Args.repository args)))
                    {| DistilLabsLLM.model_name := Args.model args;
                       DistilLabsLLM.client :=
                         {| base_url :=
                              "http://127.0.0.1:" +:+
                              str_of_int (Args.port args) +:+ "/v1";
                            api_key := Args.api_key args |} |}
                    env event_handler) as Hr.
      destruct (run_git_diff_analysis _ _ _ _) as [[s' tr] r].
      unfold result_of in Hr. simpl in Hr.
      eexists _, _, _, _. split; [reflexivity|]. split; [|done].
      intros code. by destruct Hr as [->|[->|[text ->]]].
Qed.

Lemma main_requires_repository_witness :
  main {| Args.api_key := "EMPTY"; Args.model := "commit-bot-llama-1.0-1B";
          Args.port := 11434; Args.repository := "/home/dev/missing";
          Args.watch := true |}
    (Sample.world 1762240000 (Exited 0 EmptyString EmptyString)) None =
  (None,
   [Exists "/home/dev/missing";
    Print Stderr "Error: Repository path does not exist: /home/dev/missing"],
   Raise (SystemExit 1)).
Proof.
  apply (proj1 (proj1 (main_requires_repository
                         {| Args.api_key := "EMPTY";
                            Args.model := "commit-bot-llama-1.0-1B";
                            Args.port := 11434;
                            Args.repository := "/home/dev/missing";
                            Args.watch := true |}
                         (Sample.world 1762240000 (Exited 0 "" "")) None)
                  eq_refl)).
Defined.

(** C6. For every question and every diff, [get_prompt] returns exactly
    two messages, the system message first and the user message second.
    The system message is one fixed dict, the same for all inputs; the
    content of the user message is a fixed head followed by the diff
    between [<context>] and [</context>] and the question between
    [<question>] and [</question>], both verbatim. Equal inputs give
    equal message lists, whatever the client object. *)
Theorem get_prompt_messages :
  exists (system_message : gmap string string) (head : string),
    system_message = {[ "role" := "system"; "content" := SYSTEM_CONTENT ]} /\
    (forall self question context,
       DistilLabsLLM.get_prompt self question context =
         [ system_message;
           {[ "role" := "user";
              "content" :=
                head +:+ "<context>" +:+ context +:+ "</context>" +:+ NL +:+
                "<question>" +:+ question +:+ "</question>" +:+ NL ]} ]) /\
    (forall self self' question question' context context',
       question = question' -> context = context' ->
       DistilLabsLLM.get_prompt self question context =
         DistilLabsLLM.get_prompt self' question' context').
Proof.
  eexists _, "

Now for the real task, solve the task in question block based on the context in context block.
Generate only the solution, do not generate anything else
".
  split; [reflexivity|]. split.
  - intros self question context. reflexivity.
  - by intros self self' question question' context context' -> ->.
Qed.

End claims_main.

(** * The temperature of every request of a watch session *)

Section temperature_facts.

Import Py Bot Trace.

Lemma requests_app (t1 t2 : list effect) :
  requests (t1 ++ t2) = requests t1 ++ requests t2.
Proof.
  induction t1 as [|e t1 IH]; [done|]. destruct e; simpl; by rewrite ?IH.
Qed.

Lemma run_temperature {S : Type} (repository_path : string)
    (client : DistilLabsLLM.t) (env : Env) (s : S) :
  Forall (fun request => temperature request = 0%Z)
    (requests (trace_of (run_git_diff_analysis repository_path client env s))).
Proof.
  destruct (run_cases repository_path env)
    as [Hi|[[t H]|[(rc & out & err & H & Hrc)|[[err H]|(out & err & H & Hout)]]]].
  - rewrite (run_interrupted _ _ _ _ Hi). constructor.
  - rewrite (run_not_run _ _ _ _ _ H). constructor.
  - rewrite (run_failed_exit _ _ _ _ _ _ _ H Hrc). constructor.
  - rewrite (run_no_changes _ _ _ _ _ H). constructor.
  - destruct (run_changes _ client _ s _ _ H Hout) as (tail & r & -> & Ht & _).
    unfold trace_of. simpl. rewrite Ht. by repeat constructor.
Qed.

Lemma on_any_event_temperature (event : FileSystemEvent) (env : Env)
    (self : RepositoryChangeHandler.t) :
  Forall (fun request => temperature request = 0%Z)
    (requests (trace_of (RepositoryChangeHandler.on_any_event event env self))).
Proof.
  rewrite on_any_event_eq.
  destruct (_ || _); [constructor|].
  destruct (Qle_bool _ _); [|constructor].
  pose proof (run_temperature (RepositoryChangeHandler.repository_path self)
                (RepositoryChangeHandler.client self) env
                (RepositoryChangeHandler.set_last_trigger_time self
                   (env_time env))) as H.
  by destruct (run_git_diff_analysis _ _ _ _) as [[s' tr] r].
Qed.

(** Whatever events the dispatching thread delivers, every request that
    leaves the program has temperature 0. *)
Lemma observer_run_temperature (queue : list (Env * FileSystemEvent))
    (self : RepositoryChangeHandler.t) :
  Forall (fun request => temperature request = 0%Z)
    (requests (trace_of (observer_run queue self))).
Proof.
  revert self. induction queue as [|[env event] queue IH]; intros self;
    [constructor|].
  simpl. pose proof (on_any_event_temperature event env self) as H.
  destruct (RepositoryChangeHandler.on_any_event event env self)
    as [[self' trace] [[]|e]]; [|done].
  specialize (IH self').
  destruct (observer_run queue self') as [[self'' trace'] r].
  unfold trace_of in *. simpl in *. rewrite requests_app.
  by apply Forall_app.
Qed.

End temperature_facts.

(** * Further properties of the normalizer *)

Section normalize_extra_facts.

Import Scan.

Lemma split_app_lf (a b : string) :
  PyStr.split PyStr.LF (a +:+ Bot.NL +:+ b) =
    PyStr.split PyStr.LF a ++ PyStr.split PyStr.LF b.
Proof.
  induction a as [|c a IH]; [done|]. rewrite append_cons. simpl.
  destruct (Ascii.eqb_spec c PyStr.LF); [by rewrite IH|].
  rewrite IH. pose proof (split_nonempty a) as Hne.
  by destruct (PyStr.split PyStr.LF a).
Qed.

Lemma join_app (ls1 ls2 : list string) :
  ls1 <> [] -> ls2 <> [] ->
  PyStr.join Bot.NL (ls1 ++ ls2) =
    PyStr.join Bot.NL ls1 +:+ Bot.NL +:+ PyStr.join Bot.NL ls2.
Proof.
  intros H1 H2. induction ls1 as [|l ls1 IH]; [done|].
  destruct ls1 as [|l' ls1].
  - simpl app. by rewrite join_cons.
  - rewrite <- app_comm_cons, !join_cons by done.
    rewrite IH by done. by rewrite !append_assoc.
Qed.

Lemma normalize_line_prefix (l : string) :
  no_lf l = true -> exists u, l = Bot.normalize_line l +:+ u.
Proof.
  intros Hl. rewrite (normalize_line_cut _ Hl).
  destruct (PyStr.startswith l "@@"); [apply cut_prefix|].
  exists EmptyString. by rewrite append_nil_r.
Qed.

Lemma normalize_diff_split (x : string) :
  PyStr.split PyStr.LF (Bot.normalize_diff x) =
    Bot.normalize_line <$> PyStr.split PyStr.LF x.
Proof.
  unfold Bot.normalize_diff. apply split_join.
  - intros H%fmap_nil_inv. by apply (split_nonempty x).
  - apply normalize_lines_no_lf, split_lines_no_lf.
Qed.

Lemma join_length_le (ls1 ls2 : list string) :
  Forall2 (fun a b => String.length a <= String.length b) ls1 ls2 ->
  String.length (PyStr.join Bot.NL ls1) <= String.length (PyStr.join Bot.NL ls2).
Proof.
  induction 1 as [|a b ls1 ls2 Hab Hls IH]; [done|].
  destruct Hls as [|a' b' ls1 ls2 Hab' Hls]; [exact Hab|].
  rewrite (join_cons a), (join_cons b) by done. rewrite !length_append. lia.
Qed.

Lemma normalize_line_marker (r t : string) :
  no_at r = true -> no_lf t = true ->
  Bot.normalize_line ("@@" +:+ r +:+ "@@" +:+ t) = "@@" +:+ r +:+ "@@".
Proof.
  intros Hr Ht. unfold Bot.normalize_line. rewrite (sub1_marker r t Hr Ht).
  unfold PyStr.startswith. by rewrite (prefix_append "@@").
Qed.

End normalize_extra_facts.

(** X1. Normalizing keeps the lines of a diff in place: the output has
    as many lines as the input, each output line is an initial part of
    the input line at the same position, and the text as a whole never
    grows. *)
Theorem normalize_diff_keeps_lines (x : string) :
  Forall2 (fun out inp => exists u, inp = out +:+ u)
    (PyStr.split PyStr.LF (Bot.normalize_diff x)) (PyStr.split PyStr.LF x) /\
  length (PyStr.split PyStr.LF (Bot.normalize_diff x)) =
    length (PyStr.split PyStr.LF x) /\
  String.length (Bot.normalize_diff x) <= String.length x.
Proof.
  assert (Forall2 (fun out inp => exists u, inp = out +:+ u)
            (PyStr.split PyStr.LF (Bot.normalize_diff x))
            (PyStr.split PyStr.LF x)) as H.
  { rewrite normalize_diff_split. apply Forall2_fmap_l, Forall_Forall2_diag.
    eapply Forall_impl; [apply split_lines_no_lf|].
    intros l Hl. by apply normalize_line_prefix. }
  split; [exact H|]. split; [by eapply Forall2_length|].
  assert (String.length
            (PyStr.join Bot.NL (PyStr.split PyStr.LF (Bot.normalize_diff x))) <=
          String.length (PyStr.join Bot.NL (PyStr.split PyStr.LF x))) as Hle.
  { apply join_length_le. eapply Forall2_impl; [exact H|].
    intros out inp [u ->]. rewrite length_append. lia. }
  by rewrite !join_split in Hle.
Qed.

(** X2. A diff none of whose lines begins with ["@@"] is returned as it
    is, whatever else it contains. *)
Theorem normalize_diff_without_hunks (x : string) :
  Forall (fun l => PyStr.startswith l "@@" = false) (PyStr.split PyStr.LF x) ->
  Bot.normalize_diff x = x.
Proof.
  intros H. unfold Bot.normalize_diff.
  rewrite <- (join_split x) at 2. f_equal.
  rewrite <- (list_fmap_id (PyStr.split PyStr.LF x)) at 2.
  apply Forall_fmap_ext_1. eapply Forall_impl; [exact H|].
  intros l Hl. unfold Bot.normalize_line. by rewrite Hl.
Qed.

Lemma normalize_diff_without_hunks_witness :
  Bot.normalize_diff "diff --git a/x b/x
+a @@ b @@ c
" = "diff --git a/x b/x
+a @@ b @@ c
".
Proof.
  apply normalize_diff_without_hunks. by repeat constructor.
Defined.

(** X3. Normalizing distributes over line breaks: the text made of two
    parts with a line feed between them is normalized part by part. *)
Theorem normalize_diff_app (a b : string) :
  Bot.normalize_diff (a +:+ Bot.NL +:+ b) =
    Bot.normalize_diff a +:+ Bot.NL +:+ Bot.normalize_diff b.
Proof.
  unfold Bot.normalize_diff. rewrite split_app_lf, fmap_app.
  apply join_app; intros H%fmap_nil_inv; by eapply split_nonempty.
Qed.

(** X4. After normalizing, no hunk header carries trailing text: an
    output line that starts with a marker pair ["@@" r "@@"] ends with
    it. *)
Theorem normalize_diff_strips_all_headers (x : string) :
  Forall (fun l =>
            Scan.marker_pair l ->
            exists r, l = "@@" +:+ r +:+ "@@" /\ Scan.no_at r = true)
    (PyStr.split PyStr.LF (Bot.normalize_diff x)).
Proof.
  rewrite normalize_diff_split. apply Forall_fmap.
  eapply Forall_impl; [apply split_lines_no_lf|]. intros l Hl. simpl.
  intros (r & t & Heq & Hr). exists r. split; [|done].
  pose proof (normalize_line_no_lf _ Hl) as Hout.
  pose proof (normalize_line_idempotent _ Hl) as Hidem.
  rewrite Heq in Hout, Hidem |- *.
  assert (Scan.no_lf t = true) as Ht.
  { unfold Scan.no_lf in *. rewrite !all_in_append in Hout.
    by apply andb_prop in Hout as [_ [_ [_ ?]%andb_prop]%andb_prop]. }
  by rewrite (normalize_line_marker r t Hr Ht) in Hidem.
Qed.

(** * The pipeline with a non-empty diff *)

Section pipeline_extra_facts.

Import Py Bot Trace.

Lemma run_changes_eq {S : Type} (repository_path : string)
    (client : DistilLabsLLM.t) (env : Env) (s : S) (stdout stderr : string) :
  env_run env git_diff repository_path = Exited 0 stdout stderr ->
  stdout <> EmptyString ->
  run_git_diff_analysis repository_path client env s =
    match result_of
            (DistilLabsLLM.invoke client DEFAULT_QUESTION
               (normalize_diff stdout) env s) with
    | Ok answer =>
        (s,
         Run git_diff repository_path :: More.banner env ++
           [Create (DistilLabsLLM.client client)
              (request_of client DEFAULT_QUESTION (normalize_diff stdout));
            Print Stdout answer],
         Ok tt)
    | Raise e =>
        (s,
         Run git_diff repository_path :: More.banner env ++
           [Create (DistilLabsLLM.client client)
              (request_of client DEFAULT_QUESTION (normalize_diff stdout))],
         Raise e)
    end.
Proof.
  intros Hrun Hout.
  unfold run_git_diff_analysis, try_except, subprocess_run.
  unfold bind at 1 2 3 4. unfold emit at 1, ask at 1. rewrite Hrun.
  change (0 =? 0)%Z with true. cbv iota beta. unfold ret at 1 2.
  cbv iota beta. rewrite falsy_normalize_diff.
  destruct stdout as [|a out]; [done|]. cbn [PyStr.falsy]. cbv iota.
  cbv [bind print time_strftime emit ask ret]. rewrite invoke_eq.
  unfold result_of. cbn [snd].
  by destruct (env_create env _ _) as [[[|c cs]]|text|].
Qed.

End pipeline_extra_facts.

Section claims_pipeline_extra.

Import Py Bot Trace.



(** X6. [invoke] handles no failure of the completion call. It calls
    [create] once; when that call raises, the exception leaves [invoke];
    when the call answers with an empty list of choices, indexing the
    first choice raises. *)
Theorem invoke_failures_escape {S : Type} (self : DistilLabsLLM.t)
    (question context : string) (env : Env) (s : S) :
  (forall text,
     env_create env (DistilLabsLLM.client self)
       (request_of self question context) = ServiceError text ->
     DistilLabsLLM.invoke self question context env s =
       (s, [Create (DistilLabsLLM.client self)
              (request_of self question context)],
        Raise (Exception text))) /\
  (forall chat_response,
     env_create env (DistilLabsLLM.client self)
       (request_of self question context) = Answered chat_response ->
     choices chat_response = [] ->
     DistilLabsLLM.invoke self question context env s =
       (s, [Create (DistilLabsLLM.client self)
              (request_of self question context)],
        Raise (Exception "list index out of range"))).
Proof.
  rewrite invoke_eq. split.
  - by intros text ->.
  - intros chat_response -> Hc. by rewrite Hc.
Qed.

Lemma invoke_failures_escape_witness :
  DistilLabsLLM.invoke Sample.llm DEFAULT_QUESTION "+x"
    {| env_time := 1762240000;
       env_strftime := fun _ => "2025-11-04 07:06:40";
       env_run := fun _ _ => Exited 0 "+x" EmptyString;
       env_create := fun _ _ => Answered {| choices := [] |};
       env_expanduser := fun path => path;
       env_abspath := fun path => path;
       env_exists := fun _ => true;
       env_interrupt := 0 |} tt =
  (tt, [Create (DistilLabsLLM.client Sample.llm)
          (request_of Sample.llm DEFAULT_QUESTION "+x")],
   Raise (Exception "list index out of range")).
Proof.
  apply (proj2 (invoke_failures_escape Sample.llm DEFAULT_QUESTION "+x"
                  {| env_time := 1762240000;
                     env_strftime := fun _ => "2025-11-04 07:06:40";
                     env_run := fun _ _ => Exited 0 "+x" EmptyString;
                     env_create := fun _ _ => Answered {| choices := [] |};
                     env_expanduser := fun path => path;
                     env_abspath := fun path => path;
                     env_exists := fun _ => true;
                     env_interrupt := 0 |} tt)
           {| choices := [] |}); reflexivity.
Defined.

(** X7. A failure of the completion call is not caught anywhere. When
    [invoke] raises on a non-empty diff, the exception leaves
    [run_git_diff_analysis] after the banner and the request, with no
    further output, and it leaves the call of the handler that triggered
    the run. The timestamp of the handler was set before, so a
    qualifying event less than one interval later is denied. *)
Theorem completion_failure_escapes (self : RepositoryChangeHandler.t)
    (event event' : FileSystemEvent) (env env' : Env)
    (stdout stderr : string) (e : exn) :
  Spec.qualifying event -> Spec.qualifying event' ->
  Spec.gate_open self (env_time env) ->
  env_run env git_diff (RepositoryChangeHandler.repository_path self) =
    Exited 0 stdout stderr ->
  stdout <> EmptyString ->
  result_of
    (DistilLabsLLM.invoke (RepositoryChangeHandler.client self)
       DEFAULT_QUESTION (normalize_diff stdout) env
       (RepositoryChangeHandler.set_last_trigger_time self (env_time env))) =
    Raise e ->
  (env_time env' - env_time env <
     RepositoryChangeHandler.debounce_seconds self)%Q ->
  RepositoryChangeHandler.on_any_event event env self =
    (RepositoryChangeHandler.set_last_trigger_time self (env_time env),
     Time :: Run git_diff (RepositoryChangeHandler.repository_path self) ::
       More.banner env ++
       [Create (DistilLabsLLM.client (RepositoryChangeHandler.client self))
          (request_of (RepositoryChangeHandler.client self) DEFAULT_QUESTION
             (normalize_diff stdout))],
     Raise e) /\
  RepositoryChangeHandler.on_any_event event' env'
    (RepositoryChangeHandler.set_last_trigger_time self (env_time env)) =
    (RepositoryChangeHandler.set_last_trigger_time self (env_time env),
     [Time], Ok tt).
Proof.
  intros Hq Hq' Hopen Hrun Hout Hraise Hsoon. split.
  - rewrite on_any_event_eq.
    rewrite (proj2 (filter_spec event) Hq).
    rewrite (proj2 (Qle_bool_iff _ _) Hopen).
    by rewrite (run_changes_eq _ _ _ _ _ _ Hrun Hout), Hraise.
  - apply on_any_event_closed; [done|]. by apply gate_closed_after.
Qed.

Lemma completion_failure_escapes_witness :
  result_of
    (RepositoryChangeHandler.on_any_event
       (Sample.saved "/home/dev/project/README.md")
       {| env_time := 1762240000;
          env_strftime := fun _ => "2025-11-04 07:06:40";
          env_run := fun _ _ => Exited 0 "+x" EmptyString;
          env_create := fun _ _ => ServiceError "Connection error.";
          env_expanduser := fun path => path;
          env_abspath := fun path => path;
          env_exists := fun _ => true;
          env_interrupt := 0 |}
       Sample.handler) = Raise (Exception "Connection error.").
Proof.
  pose proof (completion_failure_escapes Sample.handler
           (Sample.saved "/home/dev/project/README.md")
           (Sample.saved "/home/dev/project/README.md")
           {| env_time := 1762240000;
              env_strftime := fun _ => "2025-11-04 07:06:40";
              env_run := fun _ _ => Exited 0 "+x" EmptyString;
              env_create := fun _ _ => ServiceError "Connection error.";
              env_expanduser := fun path => path;
              env_abspath := fun path => path;
              env_exists := fun _ => true;
              env_interrupt := 0 |}
           (Sample.world 1762240004 (Exited 0 "+x" EmptyString))
           "+x" EmptyString (Exception "Connection error.")) as H.
  destruct H as [H _].
  - apply filter_spec. by vm_compute.
  - apply filter_spec. by vm_compute.
  - by vm_compute.
  - reflexivity.
  - discriminate.
  - reflexivity.
  - by vm_compute.
  - by rewrite H.
Defined.

End claims_pipeline_extra.

(** * What one call of the handler does, and what a session does *)

Section session_facts.

Import Py Bot Trace.
Import RepositoryChangeHandler.

Lemma runs_app (t1 t2 : list effect) : runs (t1 ++ t2) = runs t1 + runs t2.
Proof.
  induction t1 as [|e t1 IH]; [done|]. destruct e; simpl; by rewrite ?IH.
Qed.

Lemma commands_app (t1 t2 : list effect) :
  More.commands (t1 ++ t2) = More.commands t1 ++ More.commands t2.
Proof.
  induction t1 as [|e t1 IH]; [done|]. destruct e; simpl; by rewrite ?IH.
Qed.

(** One run of the pipeline starts one subprocess, the [git diff] of the
    repository, and sends at most one request. *)
Lemma run_shape {S : Type} (repository_path : string)
    (client : DistilLabsLLM.t) (env : Env) (s : S) :
  More.commands (trace_of (run_git_diff_analysis repository_path client env s))
    = [(git_diff, repository_path)] /\
  length (requests (trace_of
                      (run_git_diff_analysis repository_path client env s)))
    <= 1.
Proof.
  destruct (run_cases repository_path env)
    as [Hi|[[t H]|[(rc & out & err & H & Hrc)|[[err H]|(out & err & H & Hout)]]]].
  - rewrite (run_interrupted _ _ _ _ Hi). simpl. split; [done|lia].
  - rewrite (run_not_run _ _ _ _ _ H). simpl. split; [done|lia].
  - rewrite (run_failed_exit _ _ _ _ _ _ _ H Hrc). simpl. split; [done|lia].
  - rewrite (run_no_changes _ _ _ _ _ H). simpl. split; [done|lia].
  - rewrite (run_changes_eq _ client _ s _ _ H Hout).
    destruct (result_of _); simpl; (split; [done|lia]).
Qed.

(** A call of the handler either triggers, for a qualifying event that
    finds the gate open, or does nothing beyond reading the clock. *)
Lemma on_any_event_dichotomy (event : FileSystemEvent) (env : Env) (self : t) :
  (Spec.qualifying event /\ Spec.gate_open self (env_time env) /\
   exists trace r,
     on_any_event event env self =
       (set_last_trigger_time self (env_time env), Time :: trace, r) /\
     runs trace = 1 /\ length (requests trace) <= 1 /\
     More.commands trace = [(git_diff, repository_path self)]) \/
  (exists trace,
     on_any_event event env self = (self, trace, Ok tt) /\
     runs trace = 0 /\ requests trace = [] /\ More.commands trace = []).
Proof.
  rewrite on_any_event_eq.
  destruct (_ || _) eqn:Hf; [right; by eauto|].
  apply filter_spec in Hf.
  destruct (Qle_bool _ _) eqn:Hg; [|right; by eauto].
  apply Qle_bool_iff in Hg. left. split; [done|]. split; [done|].
  pose proof (run_state (repository_path self) (client self) env
                (set_last_trigger_time self (env_time env))) as Hs.
  pose proof (run_runs (repository_path self) (client self) env
                (set_last_trigger_time self (env_time env))) as Hr.
  destruct (run_shape (repository_path self) (client self) env
              (set_last_trigger_time self (env_time env))) as [Hc Hq].
  destruct (run_git_diff_analysis _ _ _ _) as [[s' tr] r].
  unfold state_of, trace_of in *. simpl in *. subst s'. by eauto 10.
Qed.

Lemma create_after_run_mono (trace : list effect) (ran : bool) :
  More.create_after_run false trace = true ->
  More.create_after_run ran trace = true.
Proof.
  destruct ran; [|done]. induction trace as [|e trace IH]; [done|].
  destruct e; simpl; auto. discriminate.
Qed.

Lemma create_after_run_app (t1 t2 : list effect) (ran : bool) :
  More.create_after_run ran t1 = true ->
  More.create_after_run false t2 = true ->
  More.create_after_run ran (t1 ++ t2) = true.
Proof.
  revert ran. induction t1 as [|e t1 IH]; intros ran H1 H2.
  - by apply create_after_run_mono.
  - destruct e; simpl in *; auto.
    apply andb_prop in H1 as [-> H1]. simpl. by apply IH.
Qed.

(** In a run of the pipeline the call of [create], if there is one,
    comes after the subprocess; the run reads no clock with
    [time.time()] and touches no observer. *)
Lemma run_quiet {S : Type} (repository_path : string)
    (client : DistilLabsLLM.t) (env : Env) (s : S) :
  More.create_after_run false
    (trace_of (run_git_diff_analysis repository_path client env s)) = true /\
  read_clock (trace_of (run_git_diff_analysis repository_path client env s))
    = false /\
  More.observer_free
    (trace_of (run_git_diff_analysis repository_path client env s)) = true.
Proof.
  destruct (run_cases repository_path env)
    as [Hi|[[t H]|[(rc & out & err & H & Hrc)|[[err H]|(out & err & H & Hout)]]]].
  - by rewrite (run_interrupted _ _ _ _ Hi).
  - by rewrite (run_not_run _ _ _ _ _ H).
  - by rewrite (run_failed_exit _ _ _ _ _ _ _ H Hrc).
  - by rewrite (run_no_changes _ _ _ _ _ H).
  - rewrite (run_changes_eq _ client _ s _ _ H Hout).
    by destruct (result_of _).
Qed.

Lemma on_any_event_ordered (event : FileSystemEvent) (env : Env) (self : t) :
  More.create_after_run false (trace_of (on_any_event event env self)) = true.
Proof.
  rewrite on_any_event_eq.
  destruct (_ || _); [done|]. destruct (Qle_bool _ _); [|done].
  destruct (run_quiet (repository_path self) (client self) env
              (set_last_trigger_time self (env_time env))) as [H _].
  by destruct (run_git_diff_analysis _ _ _ _) as [[s' tr] r].
Qed.

End session_facts.

Section claims_session.

Import Py Bot Trace.
Import RepositoryChangeHandler.

(** X8. Handling events never touches the configuration of the
    handler: repository path, client and interval stay as they were.
    Only the timestamp changes, and when it has changed it is the clock
    reading of a qualifying event of the queue. *)
Theorem handle_events_keeps_configuration
    (queue : list (Env * FileSystemEvent)) (self : t) :
  repository_path (fst (handle_events queue self)) = repository_path self /\
  client (fst (handle_events queue self)) = client self /\
  debounce_seconds (fst (handle_events queue self)) = debounce_seconds self /\
  (last_trigger_time (fst (handle_events queue self)) = last_trigger_time self \/
   exists p,
     In p queue /\ Spec.qualifying (snd p) /\
     last_trigger_time (fst (handle_events queue self)) = Spec.arrival p).
Proof.
  revert self. induction queue as [|[env event] queue IH]; intros self.
  - simpl. by eauto.
  - simpl.
    destruct (on_any_event_dichotomy event env self)
      as [(Hq & Hopen & tr & r & -> & _)|(tr & -> & _)].
    + specialize (IH (set_last_trigger_time self (env_time env))).
      destruct (handle_events queue _) as [self'' outs]. simpl in *.
      destruct IH as (-> & -> & -> & [->|(p & Hp & Hqp & ->)]).
      * repeat split; [done..|]. right. exists (env, event). by eauto.
      * repeat split; [done..|]. right. exists p. by eauto.
    + specialize (IH self).
      destruct (handle_events queue self) as [self'' outs]. simpl in *.
      destruct IH as (-> & -> & -> & [->|(p & Hp & Hqp & ->)]).
      * by eauto.
      * repeat split; [done..|]. right. exists p. by eauto.
Qed.

(** X9. With a non-negative interval, the triggers of a session are at
    least one interval apart, whatever the events and whenever they
    arrive: each triggering clock reading is at least one interval
    after the timestamp the handler started with and after every
    earlier triggering reading. *)
Theorem triggers_are_spaced (queue : list (Env * FileSystemEvent)) (self : t) :
  (0 <= debounce_seconds self)%Q ->
  Forall (fun u => (debounce_seconds self <= u - last_trigger_time self)%Q)
    (More.trigger_times queue (snd (handle_events queue self))) /\
  More.spaced (debounce_seconds self)
    (More.trigger_times queue (snd (handle_events queue self))).
Proof.
  revert self. induction queue as [|[env event] queue IH]; intros self Hpos.
  - simpl. by split.
  - simpl.
    destruct (on_any_event_dichotomy event env self)
      as [(Hq & Hopen & tr & r & -> & Hr & _)|(tr & -> & Hr & _)].
    + specialize (IH (set_last_trigger_time self (env_time env)) Hpos).
      destruct (handle_events queue _) as [self'' outs]. simpl in *.
      unfold triggered. simpl. rewrite Hr. simpl.
      destruct IH as [IH1 IH2]. split; [|done].
      constructor; [exact Hopen|].
      eapply Forall_impl; [exact IH1|]. intros u Hu.
      unfold Spec.gate_open, Spec.arrival in *. simpl in *. lra.
    + specialize (IH self Hpos).
      destruct (handle_events queue self) as [self'' outs]. simpl in *.
      unfold triggered. simpl. by rewrite Hr.
Qed.

Lemma triggers_are_spaced_witness :
  More.spaced 10
    (More.trigger_times
       [(Sample.world 1762240000 (Exited 0 "+x" EmptyString),
         Sample.saved "/home/dev/project/README.md");
        (Sample.world 1762240004 (Exited 0 "+x" EmptyString),
         Sample.saved "/home/dev/project/README.md");
        (Sample.world 1762240011 (Exited 0 "+x" EmptyString),
         Sample.saved "/home/dev/project/bot.py")]
       (snd (handle_events
               [(Sample.world 1762240000 (Exited 0 "+x" EmptyString),
                 Sample.saved "/home/dev/project/README.md");
                (Sample.world 1762240004 (Exited 0 "+x" EmptyString),
                 Sample.saved "/home/dev/project/README.md");
                (Sample.world 1762240011 (Exited 0 "+x" EmptyString),
                 Sample.saved "/home/dev/project/bot.py")]
               Sample.handler))).
Proof.
  apply (triggers_are_spaced _ Sample.handler). by vm_compute.
Defined.

(** X10. One call of the handler makes at most one run of [git diff]
    and at most one call of [create], and the call of [create] comes
    after the run. Over a session of the dispatching thread every call
    of [create] comes after a run, there are never more calls of
    [create] than runs, and never more runs than events. What the
    client library sends on the wire inside one call is not counted. *)
Theorem at_most_one_create_per_event :
  (forall event env self,
     length (requests (trace_of (on_any_event event env self))) <=
       runs (trace_of (on_any_event event env self)) /\
     runs (trace_of (on_any_event event env self)) <= 1 /\
     More.create_after_run false (trace_of (on_any_event event env self))
       = true) /\
  (forall queue self,
     length (requests (trace_of (observer_run queue self))) <=
       runs (trace_of (observer_run queue self)) /\
     runs (trace_of (observer_run queue self)) <= length queue /\
     More.create_after_run false (trace_of (observer_run queue self)) = true).
Proof.
  assert (forall event env self,
     length (requests (trace_of (on_any_event event env self))) <=
       runs (trace_of (on_any_event event env self)) /\
     runs (trace_of (on_any_event event env self)) <= 1 /\
     More.create_after_run false (trace_of (on_any_event event env self))
       = true) as Hone.
  { intros event env self. pose proof (on_any_event_ordered event env self) as Ho.
    destruct (on_any_event_dichotomy event env self)
      as [(_ & _ & tr & r & Heq & Hr & Hq & _)|(tr & Heq & Hr & Hq & _)];
      rewrite Heq in Ho |- *; unfold trace_of in *; simpl in *.
    - split; [lia|]. split; [lia|done].
    - rewrite Hr, Hq. simpl. split; [lia|]. split; [lia|done]. }
  split; [exact Hone|].
  intros queue. induction queue as [|[env event] queue IH]; intros self.
  - simpl. unfold trace_of. simpl. split; [lia|]. split; [lia|done].
  - simpl. destruct (Hone event env self) as (H1 & H2 & H3).
    destruct (on_any_event event env self) as [[self' tr] [[]|e]].
    + specialize (IH self').
      destruct (observer_run queue self') as [[self'' tr'] r].
      unfold trace_of in *. simpl in *. destruct IH as (IH1 & IH2 & IH3).
      rewrite requests_app, runs_app, length_app.
      split; [lia|]. split; [lia|]. by apply create_after_run_app.
    + unfold trace_of in *. simpl in *. split; [lia|]. split; [lia|done].
Qed.

(** X11. The only command the program ever starts is
    [git diff --no-ext-diff -U0 HEAD], in the repository the handler was
    built for: this holds for every subprocess of every call of the
    handler and of every session of the dispatching thread. *)
Theorem only_git_diff_is_run :
  (forall event env self,
     Forall (fun c => c = (git_diff, repository_path self))
       (More.commands (trace_of (on_any_event event env self)))) /\
  (forall queue self,
     Forall (fun c => c = (git_diff, repository_path self))
       (More.commands (trace_of (observer_run queue self)))).
Proof.
  assert (forall event env self,
     Forall (fun c => c = (git_diff, repository_path self))
       (More.commands (trace_of (on_any_event event env self))) /\
     repository_path (state_of (on_any_event event env self)) =
       repository_path self) as Hone.
  { intros event env self.
    destruct (on_any_event_dichotomy event env self)
      as [(_ & _ & tr & r & -> & _ & _ & Hc)|(tr & -> & _ & _ & Hc)];
      unfold trace_of, state_of; simpl; rewrite Hc; by repeat constructor. }
  split; [intros event env self; by apply Hone|].
  intros queue. induction queue as [|[env event] queue IH]; intros self.
  - constructor.
  - simpl. destruct (Hone event env self) as [H1 H2].
    destruct (on_any_event event env self) as [[self' tr] [[]|e]].
    + specialize (IH self').
      destruct (observer_run queue self') as [[self'' tr'] r].
      unfold trace_of, state_of in *. simpl in *.
      rewrite commands_app. apply Forall_app. split; [done|].
      by rewrite <- H2.
    + done.
Qed.

End claims_session.

(** * The two modes of the main block *)

Section claims_modes.

Import Py Bot Trace.

(** X12. Without [--watch] and with an existing repository path, the
    main block constructs the client, prints the hint to use [--watch]
    and then runs the pipeline once, on the main thread: one run of
    [git diff] in the repository, whatever the time, since no clock is
    read for a debounce check. It creates no observer, and the outcome
    of the pipeline is the outcome of the process. *)
Theorem main_one_shot_runs_pipeline_once (args : Args.t) (env : Env)
    (event_handler : option RepositoryChangeHandler.t) :
  env_exists env (env_abspath env (env_expanduser env (Args.repository args)))
    = true ->
  Args.watch args = false ->
  main args env event_handler =
    (event_handler,
     Exists (env_abspath env (env_expanduser env (Args.repository args)))
       :: NewOpenAI
            {| base_url :=
                 "http://127.0.0.1:" +:+ str_of_int (Args.port args) +:+ "/v1";
               api_key := Args.api_key args |}
       :: Print Stdout
            "Try --watch to watch for file changes and run continuously"
       :: trace_of
            (run_git_diff_analysis
               (env_abspath env (env_expanduser env (Args.repository args)))
               {| DistilLabsLLM.model_name := Args.model args;
                  DistilLabsLLM.client :=
                    {| base_url :=
                         "http://127.0.0.1:" +:+ str_of_int (Args.port args)
                         +:+ "/v1";
                       api_key := Args.api_key args |} |}
               env event_handler),
     result_of
       (run_git_diff_analysis
          (env_abspath env (env_expanduser env (Args.repository args)))
          {| DistilLabsLLM.model_name := Args.model args;
             DistilLabsLLM.client :=
               {| base_url :=
                    "http://127.0.0.1:" +:+ str_of_int (Args.port args) +:+
                    "/v1";
                  api_key := Args.api_key args |} |}
          env event_handler)) /\
  More.commands (trace_of (main args env event_handler)) =
    [(git_diff, env_abspath env (env_expanduser env (Args.repository args)))] /\
  read_clock (trace_of (main args env event_handler)) = false /\
  More.observer_free (trace_of (main args env event_handler)) = true.
Proof.
  intros Hex Hw. rewrite (main_one_shot_eq _ _ _ Hex Hw).
  pose proof (run_state
                (env_abspath env (env_expanduser env (Args.repository args)))
                {| DistilLabsLLM.model_name := Args.model args;
                   DistilLabsLLM.client :=
                     {| base_url :=
                          "http://127.0.0.1:" +:+ str_of_int (Args.port args)
                          +:+ "/v1";
                        api_key := Args.api_key args |} |}
                env event_handler) as Hs.
  destruct (run_shape
              (env_abspath env (env_expanduser env (Args.repository args)))
              {| DistilLabsLLM.model_name := Args.model args;
                 DistilLabsLLM.client :=
                   {| base_url :=
                        "http://127.0.0.1:" +:+ str_of_int (Args.port args)
                        +:+ "/v1";
                      api_key := Args.api_key args |} |}
              env event_handler) as [Hc _].
  destruct (run_quiet
              (env_abspath env (env_expanduser env (Args.repository args)))
              {| DistilLabsLLM.model_name := Args.model args;
                 DistilLabsLLM.client :=
                   {| base_url :=
                        "http://127.0.0.1:" +:+ str_of_int (Args.port args)
                        +:+ "/v1";
                      api_key := Args.api_key args |} |}
              env event_handler) as (_ & Hclock & Hobs).
  destruct (run_git_diff_analysis _ _ _ _) as [[s' tr] r].
  unfold state_of, trace_of, result_of in *. simpl in *. by subst s'.
Qed.

Lemma main_one_shot_runs_pipeline_once_witness :
  More.commands
    (trace_of
       (main {| Args.api_key := "EMPTY"; Args.model := "commit-bot-llama-1.0-1B";
                Args.port := 11434; Args.repository := "/home/dev/project";
                Args.watch := false |}
          (Sample.world 1762240000 (Exited 0 "+x" EmptyString)) None)) =
    [(git_diff, "/home/dev/project")].
Proof.
  apply (proj1 (proj2 (main_one_shot_runs_pipeline_once
                  {| Args.api_key := "EMPTY";
                     Args.model := "commit-bot-llama-1.0-1B";
                     Args.port := 11434;
                     Args.repository := "/home/dev/project";
                     Args.watch := false |}
                  (Sample.world 1762240000 (Exited 0 "+x" "")) None
                  eq_refl eq_refl))).
Defined.

(** X13. With [--watch] and an existing repository path, the main
    thread binds [event_handler] to a fresh handler for that path (the
    default interval, timestamp 0), creates one observer, schedules it
    recursively on the path and starts it, sleeps one second at a time
    until the interrupt, then stops the observer, reports it, joins it
    and ends with status 0. The main thread itself never runs
    [git diff] and never sends a request. *)
Theorem main_watch_lifecycle (args : Args.t) (env : Env)
    (event_handler : option RepositoryChangeHandler.t) :
  env_exists env (env_abspath env (env_expanduser env (Args.repository args)))
    = true ->
  Args.watch args = true ->
  main args env event_handler =
    (Some
       (RepositoryChangeHandler.init
          (env_abspath env (env_expanduser env (Args.repository args)))
          {| DistilLabsLLM.model_name := Args.model args;
             DistilLabsLLM.client :=
               {| base_url :=
                    "http://127.0.0.1:" +:+ str_of_int (Args.port args) +:+
                    "/v1";
                  api_key := Args.api_key args |} |}
          RepositoryChangeHandler.default_debounce_seconds),
     [Exists (env_abspath env (env_expanduser env (Args.repository args)));
      NewOpenAI
        {| base_url :=
             "http://127.0.0.1:" +:+ str_of_int (Args.port args) +:+ "/v1";
           api_key := Args.api_key args |};
      Print Stdout
        ("Watching repository: " +:+
         env_abspath env (env_expanduser env (Args.repository args)));
      Print Stdout ("Press Ctrl+C to stop..." +:+ NL);
      NewObserver;
      Schedule (env_abspath env (env_expanduser env (Args.repository args)))
        true;
      Start] ++
     replicate (env_interrupt env) (Sleep 1) ++
     [Stop; Print Stdout (NL +:+ "Stopped watching repository"); Join],
     Ok tt) /\
  exit_status (result_of (main args env event_handler)) = 0%Z /\
  runs (trace_of (main args env event_handler)) = 0 /\
  requests (trace_of (main args env event_handler)) = [].
Proof.
  intros Hex Hw.
  assert (forall n, runs (replicate n (Sleep 1) ++
            [Stop; Print Stdout (NL +:+ "Stopped watching repository"); Join])
          = 0 /\
          requests (replicate n (Sleep 1) ++
            [Stop; Print Stdout (NL +:+ "Stopped watching repository"); Join])
          = []) as Hsleep.
  { intros n. induction n as [|n [IH1 IH2]]; by split. }
  match goal with |- ?eq /\ _ => assert eq as H end.
  { cbv [main bind os_path_exists ask emit ret print raise
         DistilLabsLLM.init try_except put].
    rewrite Hex, Hw. cbv [negb]. cbv beta iota.
    rewrite wait_for_interrupt_eq. cbv beta iota.
    do 2 f_equal. cbn [app]. do 7 f_equal. by rewrite <- app_assoc. }
  rewrite H. split; [done|]. split; [done|].
  unfold trace_of. simpl. apply Hsleep.
Qed.

Lemma main_watch_lifecycle_witness :
  exit_status
    (result_of
       (main {| Args.api_key := "EMPTY"; Args.model := "commit-bot-llama-1.0-1B";
                Args.port := 11434; Args.repository := "/home/dev/project";
                Args.watch := true |}
          (Sample.world 1762240000 (Exited 0 "+x" EmptyString)) None)) = 0%Z.
Proof.
  apply (proj1 (proj2 (main_watch_lifecycle
                  {| Args.api_key := "EMPTY";
                     Args.model := "commit-bot-llama-1.0-1B";
                     Args.port := 11434;
                     Args.repository := "/home/dev/project";
                     Args.watch := true |}
                  (Sample.world 1762240000 (Exited 0 "+x" "")) None
                  eq_refl eq_refl))).
Defined.

End claims_modes.

(** * The endpoint address *)

Section endpoint_facts.

Import Py Bot.

Lemma to_int_not_nil (n : Z) :
  Z.to_int n <> Decimal.Pos Decimal.Nil /\ Z.to_int n <> Decimal.Neg Decimal.Nil.
Proof.
  destruct n as [|p|p]; simpl; split; try discriminate;
    intros [= H]; by apply (DecimalPos.Unsigned.to_uint_nonnil p).
Qed.

(** The decimal text of an integer determines it. *)
Lemma str_of_int_inj (a b : Z) : str_of_int a = str_of_int b -> a = b.
Proof.
  unfold str_of_int. intros H. apply DecimalZ.to_int_inj.
  destruct (to_int_not_nil a) as [Ha1 Ha2].
  destruct (to_int_not_nil b) as [Hb1 Hb2].
  pose proof (NilZero.isi _ Ha1 Ha2) as Ha.
  pose proof (NilZero.isi _ Hb1 Hb2) as Hb.
  rewrite H in Ha. congruence.
Qed.

Lemma append_inj_r (s t u : string) : s +:+ u = t +:+ u -> s = t.
Proof.
  revert t. induction s as [|a s IH]; intros [|b t] H.
  - done.
  - apply (f_equal String.length) in H.
    rewrite append_nil_l, append_cons in H. simpl in H.
    rewrite length_append in H. lia.
  - apply (f_equal String.length) in H.
    rewrite append_nil_l, append_cons in H. simpl in H.
    rewrite length_append in H. lia.
  - rewrite !append_cons in H. injection H as -> H. by rewrite (IH _ H).
Qed.

End endpoint_facts.

(** X14. The client built by [DistilLabsLLM.__init__] keeps the model
    name and the key it was given, and its address is
    [http://127.0.0.1:], the port in decimal, [/v1]: the text of the
    port reads back as the port, and two clients have the same address
    only if they were built for the same port. *)
Theorem init_address_names_port {S : Type} (model_name model_name' : string)
    (api_key api_key' : string) (port port' : Z) (env env' : Py.Env)
    (s s' : S) (self self' : Bot.DistilLabsLLM.t) :
  Trace.result_of (Bot.DistilLabsLLM.init model_name api_key port env s) =
    Py.Ok self ->
  Trace.result_of (Bot.DistilLabsLLM.init model_name' api_key' port' env' s') =
    Py.Ok self' ->
  Bot.DistilLabsLLM.model_name self = model_name /\
  Py.api_key (Bot.DistilLabsLLM.client self) = api_key /\
  Trace.trace_of (Bot.DistilLabsLLM.init model_name api_key port env s) =
    [Py.NewOpenAI (Bot.DistilLabsLLM.client self)] /\
  (exists digits,
     Py.base_url (Bot.DistilLabsLLM.client self) =
       "http://127.0.0.1:" +:+ digits +:+ "/v1" /\
     exists d, NilZero.int_of_string digits = Some d /\ Z.of_int d = port) /\
  (Py.base_url (Bot.DistilLabsLLM.client self') =
     Py.base_url (Bot.DistilLabsLLM.client self) ->
   port' = port).
Proof.
  intros [= <-] [= <-]. split; [done|]. split; [done|]. split; [done|]. split.
  - exists (Py.str_of_int port). split; [done|]. exists (Z.to_int port).
    destruct (to_int_not_nil port) as [H1 H2].
    split; [by apply NilZero.isi|apply DecimalZ.of_to].
  - simpl. intros H. apply String.app_inj in H. apply append_inj_r in H.
    by apply str_of_int_inj.
Qed.

Lemma init_address_names_port_witness :
  Bot.DistilLabsLLM.model_name Sample.llm = "commit-bot-llama-1.0-1B" /\
  Py.api_key (Bot.DistilLabsLLM.client Sample.llm) = "EMPTY" /\
  Trace.trace_of
    (Bot.DistilLabsLLM.init "commit-bot-llama-1.0-1B" "EMPTY" 11434
       (Sample.world 1762240000 (Py.Exited 0 EmptyString EmptyString)) tt) =
    [Py.NewOpenAI (Bot.DistilLabsLLM.client Sample.llm)].
Proof.
  destruct (init_address_names_port (S := unit)
              "commit-bot-llama-1.0-1B" "commit-bot-llama-1.0-1B"
              "EMPTY" "EMPTY" 11434 11434
              (Sample.world 1762240000 (Py.Exited 0 "" ""))
              (Sample.world 1762240000 (Py.Exited 0 "" "")) tt tt
              Sample.llm Sample.llm) as (H1 & H2 & H3 & _);
    [by vm_compute..|done].
Defined.

(** X15. Normalizing never empties a diff and never invents one: the
    normalized text is the empty string exactly when the raw text is,
    so the emptiness test of the pipeline on the normalized text decides
    as it would on the raw output. *)
Theorem normalize_diff_never_empties (x : string) :
  (Bot.normalize_diff x = EmptyString <-> x = EmptyString) /\
  PyStr.falsy (Bot.normalize_diff x) = PyStr.falsy x.
Proof. split; [apply normalize_diff_empty|apply falsy_normalize_diff]. Qed.
